(** * FBFT validator message handlers (consensus/validator.go)

    A shallow embedding of the validator side of the three-phase FBFT
    protocol: [onAnnounce], [onPrepared], [onCommitted] and the helpers
    they call ([prepare], [sendCommitMessages], [constructP2pMessages],
    [broadcastConsensusP2pMessages], [spinUpStateSync]).

    Each handler is a function from the node's state to the state it
    leaves behind, tagged with the return statement that ended it.  The
    mutex is not modelled: a handler runs from start to end on its own. *)

From Stdlib Require Import ZArith List Bool Strings.Byte String Lia.
From stdpp Require Import base option list gmap.
Import ListNotations.

(** ** Primitive data *)

Definition bytes : Type := list byte.

#[global] Instance byte_eq_dec : EqDecision byte := Byte.byte_eq_dec.

(** Go's [bytes.Equal]. *)
Definition bytes_Equal (a b : bytes) : bool := bool_decide (a = b).

(** [uint64] values are integers in [0, 2^64); subtraction wraps. *)
Definition uint64_modulus : Z := 2 ^ 64.
Definition uint64_sub (a b : Z) : Z := ((a - b) mod uint64_modulus)%Z.

Inductive MessageType := ANNOUNCE | PREPARE | PREPARED | COMMIT | COMMITTED.
Inductive FBFTPhase := FBFTAnnounce | FBFTPrepare | FBFTCommit.
Inductive Mode := Normal | ViewChanging | Syncing | Listening.
Inductive TimeoutType := timeoutConsensus | timeoutBootstrap.

Definition Mode_eqb (a b : Mode) : bool :=
  match a, b with
  | Normal, Normal | ViewChanging, ViewChanging
  | Syncing, Syncing | Listening, Listening => true
  | _, _ => false
  end.

Definition TimeoutType_eqb (a b : TimeoutType) : bool :=
  match a, b with
  | timeoutConsensus, timeoutConsensus
  | timeoutBootstrap, timeoutBootstrap => true
  | _, _ => false
  end.

(** The wire message handed to a handler ([*msg_pb.Message]). *)
Definition RawMessage : Type := bytes.
Definition Sign : Type := bytes.
Definition PublicKey : Type := bytes.
Definition Error : Type := string.

(** What the handlers read of an [FBFTMessage], the parsed consensus message. *)
Record FBFTMessage := mkFBFTMessage {
  ViewID : Z;
  BlockNum : Z;
  BlockHash : bytes;
  Payload : bytes;
  Block : bytes
}.

(** What the handlers read of a [types.Block]. *)
Record types_Block := mkBlock {
  Epoch : Z;
  Hash : bytes;
  NumberU64 : Z;
  HeaderViewID : Z
}.

Record PrivateKeyWrapper := mkKey { Pri : bytes; Pub : bytes }.

Record NetworkMessage := mkNetworkMessage { Phase : MessageType; Bytes : bytes }.

(** ** The participation mask *)

(** Modelled from the spec: [bls.Mask] is declared outside this file.  The
    spec describes it as a bitmap over committee members that supports an
    enabled-count and a byte-level overwrite. *)
Record Mask := mkMask { Bitmap : bytes }.

Definition byteOnes (b : byte) : nat :=
  length (filter (fun i => N.testbit (Byte.to_N b) i) [0; 1; 2; 3; 4; 5; 6; 7]%N).

Fixpoint onesIn (bs : bytes) : nat :=
  match bs with
  | [] => 0
  | b :: rest => byteOnes b + onesIn rest
  end.

(** Modelled from the spec: [Mask.CountEnabled], the number of enabled bits. *)
Definition CountEnabled (m : Mask) : nat := onesIn (Bitmap m).

(** Modelled from the spec: [Mask.SetMask], the byte-level overwrite. *)
Definition SetMask (m : Mask) (bs : bytes) : Mask := mkMask bs.

(** The mask with no bit set. *)
Definition NewMask : Mask := mkMask [].

(** A [*bls.Mask] is a pointer: an index into the heap of mask objects. *)
Abbreviation MaskRef := nat.

(** ** The FBFT log *)

(** Modelled from the spec: the log stores the received messages and the
    candidate blocks, looked up by hash, and a verified flag per block. *)
Record FBFTLogT := mkLog {
  messages : list FBFTMessage;
  blocks : list types_Block;
  verifiedBlocks : list bytes
}.

Definition FBFTLog_AddMessage (m : FBFTMessage) (l : FBFTLogT) : FBFTLogT :=
  mkLog (m :: messages l) (blocks l) (verifiedBlocks l).

Definition FBFTLog_AddBlock (b : types_Block) (l : FBFTLogT) : FBFTLogT :=
  mkLog (messages l) (b :: blocks l) (verifiedBlocks l).

Definition FBFTLog_MarkBlockVerified (b : types_Block) (l : FBFTLogT) : FBFTLogT :=
  mkLog (messages l) (blocks l) (Hash b :: verifiedBlocks l).

Definition FBFTLog_GetBlockByHash (h : bytes) (l : FBFTLogT) : option types_Block :=
  find (fun b => bytes_Equal (Hash b) h) (blocks l).

(** ** The sync channel and the timers *)

(** Modelled from the spec: [BlockNumLowChan] is a single-slot signal; a
    non-blocking send fills the slot when it is free and is dropped when a
    signal is already pending. *)
Inductive SignalChan := ChanEmpty | ChanPending.

Definition trySend (ch : SignalChan) : option SignalChan :=
  match ch with
  | ChanEmpty => Some ChanPending
  | ChanPending => None
  end.

(** [consensusTimeout]: the timers by stage, each active or not. *)
Definition Timeouts : Type := list (TimeoutType * bool).

Definition Timeout_IsActive (k : TimeoutType) (ts : Timeouts) : bool :=
  match find (fun e => TimeoutType_eqb (fst e) k) ts with
  | Some e => snd e
  | None => false
  end.

Definition Timeout_set (k : TimeoutType) (on : bool) (ts : Timeouts) : Timeouts :=
  map (fun e => if TimeoutType_eqb (fst e) k then (fst e, on) else e) ts.

Definition Timeout_Stop (k : TimeoutType) : Timeouts -> Timeouts := Timeout_set k false.
Definition Timeout_Start (k : TimeoutType) : Timeouts -> Timeouts := Timeout_set k true.

(** [for _, v := range consensus.consensusTimeout { v.Stop() }] *)
Definition Timeout_StopAll (ts : Timeouts) : Timeouts :=
  map (fun e => (fst e, false)) ts.

(** ** The consensus object *)

(** The fields of [Consensus] that the handlers touch.  [Blockchain] holds
    the persisted commit signatures by block number; [delayCommit] only
    feeds [time.Sleep] and is left out. *)
#[projections(primitive)]
Record Consensus := mkConsensus {
  blockNum : Z;
  blockHash : bytes;
  block : bytes;
  phase : FBFTPhase;
  current : Mode;
  aggregatedPrepareSig : option Sign;
  prepareBitmap : option MaskRef;
  aggregatedCommitSig : option Sign;
  commitBitmap : option MaskRef;
  AggregateSig : bool;
  priKey : list PrivateKeyWrapper;
  BlockVerifier : option (types_Block -> option Error);
  FBFTLog : FBFTLogT;
  Blockchain : gmap Z (list byte);
  BlockNumLowChan : SignalChan;
  consensusTimeout : Timeouts;
  finalityCounter : bool
}.

(** Field updates. *)
Definition set_blockNum v (c : Consensus) : Consensus :=
  mkConsensus v (blockHash c) (block c) (phase c) (current c) (aggregatedPrepareSig c)
    (prepareBitmap c) (aggregatedCommitSig c) (commitBitmap c) (AggregateSig c)
    (priKey c) (BlockVerifier c) (FBFTLog c) (Blockchain c) (BlockNumLowChan c)
    (consensusTimeout c) (finalityCounter c).
Definition set_blockHash v (c : Consensus) : Consensus :=
  mkConsensus (blockNum c) v (block c) (phase c) (current c) (aggregatedPrepareSig c)
    (prepareBitmap c) (aggregatedCommitSig c) (commitBitmap c) (AggregateSig c)
    (priKey c) (BlockVerifier c) (FBFTLog c) (Blockchain c) (BlockNumLowChan c)
    (consensusTimeout c) (finalityCounter c).
Definition set_block v (c : Consensus) : Consensus :=
  mkConsensus (blockNum c) (blockHash c) v (phase c) (current c)
    (aggregatedPrepareSig c) (prepareBitmap c) (aggregatedCommitSig c) (commitBitmap c)
    (AggregateSig c) (priKey c) (BlockVerifier c) (FBFTLog c) (Blockchain c)
    (BlockNumLowChan c) (consensusTimeout c) (finalityCounter c).
Definition set_phase v (c : Consensus) : Consensus :=
  mkConsensus (blockNum c) (blockHash c) (block c) v (current c)
    (aggregatedPrepareSig c) (prepareBitmap c) (aggregatedCommitSig c) (commitBitmap c)
    (AggregateSig c) (priKey c) (BlockVerifier c) (FBFTLog c) (Blockchain c)
    (BlockNumLowChan c) (consensusTimeout c) (finalityCounter c).
Definition set_current v (c : Consensus) : Consensus :=
  mkConsensus (blockNum c) (blockHash c) (block c) (phase c) v (aggregatedPrepareSig c)
    (prepareBitmap c) (aggregatedCommitSig c) (commitBitmap c) (AggregateSig c)
    (priKey c) (BlockVerifier c) (FBFTLog c) (Blockchain c) (BlockNumLowChan c)
    (consensusTimeout c) (finalityCounter c).
Definition set_aggregatedPrepareSig v (c : Consensus) : Consensus :=
  mkConsensus (blockNum c) (blockHash c) (block c) (phase c) (current c) v
    (prepareBitmap c) (aggregatedCommitSig c) (commitBitmap c) (AggregateSig c)
    (priKey c) (BlockVerifier c) (FBFTLog c) (Blockchain c) (BlockNumLowChan c)
    (consensusTimeout c) (finalityCounter c).
Definition set_prepareBitmap v (c : Consensus) : Consensus :=
  mkConsensus (blockNum c) (blockHash c) (block c) (phase c) (current c)
    (aggregatedPrepareSig c) v (aggregatedCommitSig c) (commitBitmap c) (AggregateSig c)
    (priKey c) (BlockVerifier c) (FBFTLog c) (Blockchain c) (BlockNumLowChan c)
    (consensusTimeout c) (finalityCounter c).
Definition set_aggregatedCommitSig v (c : Consensus) : Consensus :=
  mkConsensus (blockNum c) (blockHash c) (block c) (phase c) (current c)
    (aggregatedPrepareSig c) (prepareBitmap c) v (commitBitmap c) (AggregateSig c)
    (priKey c) (BlockVerifier c) (FBFTLog c) (Blockchain c) (BlockNumLowChan c)
    (consensusTimeout c) (finalityCounter c).
Definition set_commitBitmap v (c : Consensus) : Consensus :=
  mkConsensus (blockNum c) (blockHash c) (block c) (phase c) (current c)
    (aggregatedPrepareSig c) (prepareBitmap c) (aggregatedCommitSig c) v
    (AggregateSig c) (priKey c) (BlockVerifier c) (FBFTLog c) (Blockchain c)
    (BlockNumLowChan c) (consensusTimeout c) (finalityCounter c).
Definition set_FBFTLog v (c : Consensus) : Consensus :=
  mkConsensus (blockNum c) (blockHash c) (block c) (phase c) (current c)
    (aggregatedPrepareSig c) (prepareBitmap c) (aggregatedCommitSig c) (commitBitmap c)
    (AggregateSig c) (priKey c) (BlockVerifier c) v (Blockchain c) (BlockNumLowChan c)
    (consensusTimeout c) (finalityCounter c).
Definition set_Blockchain v (c : Consensus) : Consensus :=
  mkConsensus (blockNum c) (blockHash c) (block c) (phase c) (current c)
    (aggregatedPrepareSig c) (prepareBitmap c) (aggregatedCommitSig c) (commitBitmap c)
    (AggregateSig c) (priKey c) (BlockVerifier c) (FBFTLog c) v (BlockNumLowChan c)
    (consensusTimeout c) (finalityCounter c).
Definition set_BlockNumLowChan v (c : Consensus) : Consensus :=
  mkConsensus (blockNum c) (blockHash c) (block c) (phase c) (current c)
    (aggregatedPrepareSig c) (prepareBitmap c) (aggregatedCommitSig c) (commitBitmap c)
    (AggregateSig c) (priKey c) (BlockVerifier c) (FBFTLog c) (Blockchain c) v
    (consensusTimeout c) (finalityCounter c).
Definition set_consensusTimeout v (c : Consensus) : Consensus :=
  mkConsensus (blockNum c) (blockHash c) (block c) (phase c) (current c)
    (aggregatedPrepareSig c) (prepareBitmap c) (aggregatedCommitSig c) (commitBitmap c)
    (AggregateSig c) (priKey c) (BlockVerifier c) (FBFTLog c) (Blockchain c)
    (BlockNumLowChan c) v (finalityCounter c).
Definition set_finalityCounter v (c : Consensus) : Consensus :=
  mkConsensus (blockNum c) (blockHash c) (block c) (phase c) (current c)
    (aggregatedPrepareSig c) (prepareBitmap c) (aggregatedCommitSig c) (commitBitmap c)
    (AggregateSig c) (priKey c) (BlockVerifier c) (FBFTLog c) (Blockchain c)
    (BlockNumLowChan c) (consensusTimeout c) v.

(** The node: the consensus object, the heap its mask pointers refer to,
    and the messages handed to the transport so far. *)
#[projections(primitive)]
Record World := mkWorld {
  cons : Consensus;
  heap : list Mask;
  sent : list bytes
}.

Definition updC (f : Consensus -> Consensus) (w : World) : World :=
  mkWorld (f (cons w)) (heap w) (sent w).

Definition alloc (m : Mask) (w : World) : MaskRef * World :=
  (length (heap w), mkWorld (cons w) (heap w ++ [m]) (sent w)).

(** Reading through a mask pointer; every pointer in use comes from [alloc]. *)
Definition deref (w : World) (p : MaskRef) : Mask :=
  default NewMask (heap w !! p).

(** Updating the object a mask pointer refers to. *)
Definition store (p : MaskRef) (m : Mask) (w : World) : World :=
  mkWorld (cons w) (<[p := m]> (heap w)) (sent w).

Definition pushSent (b : bytes) (w : World) : World :=
  mkWorld (cons w) (heap w) (sent w ++ [b]).

(** Modelled from the spec: [Blockchain.ReadCommitSig] and [WriteCommitSig],
    the store of commit-signature blobs by block number; a missing entry is
    the read error. *)
Definition ReadCommitSig (c : Consensus) (num : Z) : option bytes :=
  Blockchain c !! num.

Definition WriteCommitSig (num : Z) (payload : bytes) (c : Consensus) : Consensus :=
  set_Blockchain (<[num := payload]> (Blockchain c)) c.

(** Modelled from the spec: [IsViewChangingMode] and [switchPhase]. *)
Definition IsViewChangingMode (c : Consensus) : bool :=
  Mode_eqb (current c) ViewChanging.

Definition switchPhase (desired : FBFTPhase) (w : World) : World :=
  updC (set_phase desired) w.

(** Modelled from the spec: [StartFinalityCount] starts the finality timer. *)
Definition StartFinalityCount (w : World) : World :=
  updC (set_finalityCounter true) w.

(** What [ParseFBFTMessage] returns, a message pointer and an error: a nil
    error comes with a message; with an error the pointer may be nil. *)
Inductive ParseResult :=
| ParseOk (recvMsg : FBFTMessage)
| ParseErr (recvMsg : option FBFTMessage) (err : Error).

(** ** Collaborators declared outside this file

    The handlers call into the parser, the quorum decider, the BLS library,
    the RLP decoder, the sanity checks, the message constructor, the
    transport and the catch-up routine.  None of them is defined in
    validator.go; they are the operations of this class.  The checks are
    taken as functions of the consensus object that leave it as it is. *)
Class External := {
  (** [bls.BLSSignatureSizeInBytes] *)
  BLSSignatureSizeInBytes : nat;
  (** [consensus.ParseFBFTMessage] *)
  ParseFBFTMessage : RawMessage -> ParseResult;
  (** [Sign.Deserialize]; [None] is its error *)
  DeserializeSign : bytes -> option Sign;
  (** [consensus.Decider.IsQuorumAchievedByMask] *)
  IsQuorumAchievedByMask : Mask -> bool;
  (** [mask.AggregatePublic] *)
  AggregatePublic : Mask -> PublicKey;
  (** [aggSig.VerifyHash] *)
  VerifyHash : Sign -> PublicKey -> bytes -> bool;
  (** [signature.ConstructCommitPayload], from epoch, hash, number, view *)
  ConstructCommitPayload : Z -> bytes -> Z -> Z -> bytes;
  (** [rlp.DecodeBytes] into a block; [None] is its error *)
  rlp_DecodeBytes : bytes -> option types_Block;
  (** [consensus.onAnnounceSanityChecks] *)
  onAnnounceSanityChecks : Consensus -> FBFTMessage -> bool;
  (** [consensus.onPreparedSanityChecks] *)
  onPreparedSanityChecks : Consensus -> types_Block -> FBFTMessage -> bool;
  (** [consensus.checkViewID]; [None] is the nil error *)
  checkViewID : Consensus -> FBFTMessage -> option Error;
  (** [consensus.IsValidatorInCommittee] *)
  IsValidatorInCommittee : Consensus -> bytes -> bool;
  (** [consensus.construct]; [None] is its error *)
  construct : Consensus -> MessageType -> bytes -> list PrivateKeyWrapper -> option NetworkMessage;
  (** [p2p.ConstructMessage] *)
  p2p_ConstructMessage : bytes -> bytes;
  (** [consensus.msgSender.SendWithoutRetry], given what was sent before *)
  SendWithoutRetry : list bytes -> bytes -> option Error;
  (** [consensus.tryCatchup] *)
  tryCatchup : World -> World
}.

(** The return statement a handler left through, one tag per log line. *)
Inductive AnnounceExit :=
| AnnounceUnparseable      (* Unparseable leader message *)
| AnnounceSanityFailed     (* onAnnounceSanityChecks said no *)
| AnnounceViewChanging     (* Still in ViewChanging Mode, Exiting !! *)
| AnnounceViewIDFailed     (* ViewID check failed *)
| AnnouncePrepared.        (* fell off the end after prepare() *)

Inductive PreparedExit :=
| PreparedUnparseable      (* Unparseable validator message *)
| PreparedWrongBlockNum    (* Wrong BlockNum Received, ignoring! *)
| PreparedBadPayload       (* ReadSignatureBitmapPayload failed! *)
| PreparedNoQuorum         (* Quorum Not achieved. *)
| PreparedBadSignature     (* failed to verify multi signature for prepare phase *)
| PreparedBadBlock         (* Unparseable block header data *)
| PreparedSanityFailed     (* onPreparedSanityChecks said no *)
| PreparedNotNormal        (* Not in normal mode, Exiting!! *)
| PreparedNoVerifier       (* consensus received message before init. Ignoring *)
| PreparedVerifyFailed     (* Block verification failed *)
| PreparedViewIDFailed     (* ViewID check failed *)
| PreparedFutureBlock      (* Future Block Received, ignoring!! *)
| PreparedCommitSent.      (* fell off the end after switchPhase *)

Inductive CommittedExit :=
| CommittedUnparseable     (* unable to parse msg *)
| CommittedWrongBlockNum   (* Wrong BlockNum Received, ignoring! *)
| CommittedBadPayload      (* readSignatureBitmapPayload failed *)
| CommittedNoQuorum        (* Quorum Not achieved. *)
| CommittedNoBlock         (* Failed finding a matching block for committed message *)
| CommittedBadSignature    (* Failed to verify the multi signature for commit phase *)
| CommittedOutOfSync       (* OUT OF SYNC *)
| CommittedViewChanging    (* Still in ViewChanging mode, Exiting!! *)
| CommittedTimerStarted.   (* fell off the end after Start() *)

(** A handler either returns or dies on a nil pointer. *)
Inductive Outcome (L : Type) :=
| Returned (l : L) (w : World)
| Panicked.
Arguments Returned {L} l w.
Arguments Panicked {L}.

Section Handlers.
Context {E : External}.

(** Modelled from the spec: [ReadSignatureBitmapPayload] splits the payload
    at [offset] into the fixed-size signature and the bitmap that follows,
    and returns the signature and a pointer to a new mask holding that
    bitmap; a payload too short for the signature is an error. *)
Definition ReadSignatureBitmapPayload (w : World) (recvPayload : bytes) (offset : nat)
  : option (Sign * MaskRef) * World :=
  if length recvPayload <? offset + BLSSignatureSizeInBytes then (None, w)
  else
    let sigAndBitmapPayload := drop offset recvPayload in
    match DeserializeSign (take BLSSignatureSizeInBytes sigAndBitmapPayload) with
    | None => (None, w)
    | Some aggSig =>
        let bitmap := drop BLSSignatureSizeInBytes sigAndBitmapPayload in
        let (mask, w') := alloc (SetMask NewMask bitmap) w in
        (Some (aggSig, mask), w')
    end.

(** [getPriKeysInCommittee] *)
Fixpoint keysInCommittee (c : Consensus) (keys : list PrivateKeyWrapper)
  : list PrivateKeyWrapper :=
  match keys with
  | [] => []
  | key :: rest =>
      if negb (IsValidatorInCommittee c (Pub key)) then keysInCommittee c rest
      else key :: keysInCommittee c rest
  end.

Definition getPriKeysInCommittee (c : Consensus) : list PrivateKeyWrapper :=
  keysInCommittee c (priKey c).

(** The loop of [constructP2pMessages] for separate signing: [p2pMsgs]
    grows by one message per key that [construct] accepts. *)
Fixpoint constructEach (c : Consensus) (msgType : MessageType) (payloadForSign : bytes)
  (priKeys : list PrivateKeyWrapper) (p2pMsgs : list NetworkMessage) : list NetworkMessage :=
  match priKeys with
  | [] => p2pMsgs
  | key :: rest =>
      match construct c msgType payloadForSign [key] with
      | None => constructEach c msgType payloadForSign rest p2pMsgs
      | Some networkMessage =>
          constructEach c msgType payloadForSign rest (p2pMsgs ++ [networkMessage])
      end
  end.

(** [constructP2pMessages] *)
Definition constructP2pMessages (c : Consensus) (msgType : MessageType)
  (payloadForSign : bytes) (priKeys : list PrivateKeyWrapper) : list NetworkMessage :=
  let p2pMsgs := [] in
  if AggregateSig c then
    match construct c msgType payloadForSign priKeys with
    | None => p2pMsgs
    | Some networkMessage => p2pMsgs ++ [networkMessage]
    end
  else constructEach c msgType payloadForSign priKeys p2pMsgs.

(** [broadcastConsensusP2pMessages]: the error of the first failed send, or
    nil after the last message. *)
Fixpoint broadcastConsensusP2pMessages (w : World) (p2pMsgs : list NetworkMessage)
  : World * option Error :=
  match p2pMsgs with
  | [] => (w, None)
  | p2pMsg :: rest =>
      if negb (Mode_eqb (current (cons w)) Listening) then
        let wire := p2p_ConstructMessage (Bytes p2pMsg) in
        match SendWithoutRetry (sent w) wire with
        | Some err => (w, Some err)
        | None => broadcastConsensusP2pMessages (pushSent wire w) rest
        end
      else broadcastConsensusP2pMessages w rest
  end.

(** [spinUpStateSync] *)
Definition spinUpStateSync (w : World) : World :=
  match trySend (BlockNumLowChan (cons w)) with
  | Some ch =>
      let w := updC (set_BlockNumLowChan ch) w in
      let w := updC (set_current Syncing) w in
      updC (fun c => set_consensusTimeout (Timeout_StopAll (consensusTimeout c)) c) w
  | None => w
  end.

(** [prepare] *)
Definition prepare (w : World) : World :=
  let priKeys := getPriKeysInCommittee (cons w) in
  let p2pMsgs := constructP2pMessages (cons w) PREPARE [] priKeys in
  let w := fst (broadcastConsensusP2pMessages w p2pMsgs) in
  switchPhase FBFTPrepare w.

(** [sendCommitMessages] *)
Definition sendCommitMessages (w : World) (blockObj : types_Block) : World :=
  let priKeys := getPriKeysInCommittee (cons w) in
  let commitPayload :=
    ConstructCommitPayload (Epoch blockObj) (Hash blockObj)
                           (NumberU64 blockObj) (HeaderViewID blockObj) in
  let p2pMsgs := constructP2pMessages (cons w) COMMIT commitPayload priKeys in
  fst (broadcastConsensusP2pMessages w p2pMsgs).

(** [onAnnounce] *)
Definition onAnnounce (w : World) (msg : RawMessage) : Outcome AnnounceExit :=
  match ParseFBFTMessage msg with
  | ParseErr recvMsg err =>
      (* the log entry is built from recvMsg.BlockNum *)
      match recvMsg with
      | None => Panicked
      | Some _ => Returned AnnounceUnparseable w
      end
  | ParseOk recvMsg =>
      if negb (onAnnounceSanityChecks (cons w) recvMsg) then Returned AnnounceSanityFailed w
      else
        let w := updC (fun c => set_FBFTLog (FBFTLog_AddMessage recvMsg (FBFTLog c)) c) w in
        let w := updC (set_blockHash (BlockHash recvMsg)) w in
        if IsViewChangingMode (cons w) then Returned AnnounceViewChanging w
        else
          match checkViewID (cons w) recvMsg with
          | Some _ => Returned AnnounceViewIDFailed w
          | None =>
              let w := StartFinalityCount w in
              Returned AnnouncePrepared (prepare w)
          end
  end.

Definition emptyHash : bytes := repeat x00 32.

(** [onPrepared] *)
Definition onPrepared (w : World) (msg : RawMessage) : PreparedExit * World :=
  match ParseFBFTMessage msg with
  | ParseErr _ _ => (PreparedUnparseable, w)
  | ParseOk recvMsg =>
  if (BlockNum recvMsg <? blockNum (cons w))%Z then (PreparedWrongBlockNum, w)
  else
  let w := if (BlockNum recvMsg >? blockNum (cons w))%Z then spinUpStateSync w else w in
  (* check validity of prepared signature *)
  let blockHash' := BlockHash recvMsg in
  match ReadSignatureBitmapPayload w (Payload recvMsg) 0 with
  | (None, w) => (PreparedBadPayload, w)
  | (Some (aggSig, mask), w) =>
  if negb (IsQuorumAchievedByMask (deref w mask)) then (PreparedNoQuorum, w)
  else
  if negb (VerifyHash aggSig (AggregatePublic (deref w mask)) blockHash')
  then (PreparedBadSignature, w)
  else
  (* check validity of block *)
  match rlp_DecodeBytes (Block recvMsg) with
  | None => (PreparedBadBlock, w)
  | Some blockObj =>
  if negb (onPreparedSanityChecks (cons w) blockObj recvMsg) then (PreparedSanityFailed, w)
  else
  if negb (Mode_eqb (current (cons w)) Normal) then (PreparedNotNormal, w)
  else
  match BlockVerifier (cons w) with
  | None => (PreparedNoVerifier, w)
  | Some verify =>
  match verify blockObj with
  | Some _ => (PreparedVerifyFailed, w)
  | None =>
  let w := updC (fun c => set_FBFTLog (FBFTLog_MarkBlockVerified blockObj (FBFTLog c)) c) w in
  let w := updC (fun c => set_FBFTLog (FBFTLog_AddBlock blockObj (FBFTLog c)) c) w in
  (* add block field *)
  let blockPayload := Block recvMsg in
  let w := updC (set_block blockPayload) w in
  let recvMsg :=
    mkFBFTMessage (ViewID recvMsg) (BlockNum recvMsg)
                  (BlockHash recvMsg) (Payload recvMsg) [] in
  let w := updC (fun c => set_FBFTLog (FBFTLog_AddMessage recvMsg (FBFTLog c)) c) w in
  match checkViewID (cons w) recvMsg with
  | Some _ => (PreparedViewIDFailed, w)
  | None =>
  if (BlockNum recvMsg >? blockNum (cons w))%Z then (PreparedFutureBlock, w)
  else
  (* time.Sleep(consensus.delayCommit) goes here; it changes no field *)
  (* add preparedSig field *)
  let w := updC (set_aggregatedPrepareSig (Some aggSig)) w in
  let w := updC (set_prepareBitmap (Some mask)) w in
  (* Optimistically add blockhash field of prepare message *)
  let w := if bytes_Equal (blockHash (cons w)) emptyHash
           then updC (set_blockHash blockHash') w else w in
  let w := sendCommitMessages w blockObj in
  (PreparedCommitSent, switchPhase FBFTCommit w)
  end end end end end end.

(** The enabled-bit count of the bitmap a payload carries after its
    signature. *)
Definition signers (payload : bytes) : nat :=
  onesIn (drop BLSSignatureSizeInBytes payload).

(** [onCommitted], from parsing to the signature check: either the return
    it left through, or what the rest of the handler works on. *)
Definition onCommittedChecks (w : World) (msg : RawMessage)
  : (CommittedExit * World) + (FBFTMessage * Sign * MaskRef * types_Block * World) :=
  match ParseFBFTMessage msg with
  | ParseErr _ _ => inl (CommittedUnparseable, w)
  | ParseOk recvMsg =>
  (* It's ok to receive committed message for last block due to pipelining. *)
  if (BlockNum recvMsg <? uint64_sub (blockNum (cons w)) 1)%Z
  then inl (CommittedWrongBlockNum, w)
  else
  let w := if (BlockNum recvMsg >? blockNum (cons w))%Z then spinUpStateSync w else w in
  match ReadSignatureBitmapPayload w (Payload recvMsg) 0 with
  | (None, w) => inl (CommittedBadPayload, w)
  | (Some (aggSig, mask), w) =>
  if negb (IsQuorumAchievedByMask (deref w mask)) then inl (CommittedNoQuorum, w)
  else
  (* Must have the corresponding block to verify committed message. *)
  match FBFTLog_GetBlockByHash (BlockHash recvMsg) (FBFTLog (cons w)) with
  | None => inl (CommittedNoBlock, w)
  | Some blockObj =>
  let commitPayload :=
    ConstructCommitPayload (Epoch blockObj) (Hash blockObj)
                           (NumberU64 blockObj) (HeaderViewID blockObj) in
  if negb (VerifyHash aggSig (AggregatePublic (deref w mask)) commitPayload)
  then inl (CommittedBadSignature, w)
  else inr (recvMsg, aggSig, mask, blockObj, w)
  end end end.

(** [onCommitted], from [FBFTLog.AddMessage] to the write of the commit
    signature: the fields are set, then the stored blob is compared with
    the received one through the mask the field now points to.  The slice
    of the stored blob past the signature is in range: the blob is as long
    as the payload, which held a signature. *)
Definition onCommittedStore (w : World) (recvMsg : FBFTMessage) (aggSig : Sign)
  (mask : MaskRef) (blockObj : types_Block) : World :=
  let w := updC (fun c => set_FBFTLog (FBFTLog_AddMessage recvMsg (FBFTLog c)) c) w in
  let w := updC (set_aggregatedCommitSig (Some aggSig)) w in
  let w := updC (set_commitBitmap (Some mask)) w in
  match ReadCommitSig (cons w) (NumberU64 blockObj) with
  | Some commitSigBitmap =>
      if length commitSigBitmap =? length (Payload recvMsg) then
        let new := CountEnabled (deref w mask) in
        let w := store mask (SetMask (deref w mask)
                                     (drop BLSSignatureSizeInBytes commitSigBitmap)) w in
        let cur := CountEnabled (deref w mask) in
        if cur <? new
        then updC (WriteCommitSig (NumberU64 blockObj) (Payload recvMsg)) w
        else w
      else updC (WriteCommitSig (NumberU64 blockObj) (Payload recvMsg)) w
  | None => updC (WriteCommitSig (NumberU64 blockObj) (Payload recvMsg)) w
  end.

(** [onCommitted], after [tryCatchup]. *)
Definition onCommittedFinish (w : World) (recvMsg : FBFTMessage) : CommittedExit * World :=
  if (BlockNum recvMsg >? blockNum (cons w))%Z then (CommittedOutOfSync, w)
  else
  if IsViewChangingMode (cons w) then (CommittedViewChanging, w)
  else
  let w := if Timeout_IsActive timeoutBootstrap (consensusTimeout (cons w))
           then updC (fun c => set_consensusTimeout
                                 (Timeout_Stop timeoutBootstrap (consensusTimeout c)) c) w
           else w in
  (CommittedTimerStarted,
   updC (fun c => set_consensusTimeout
                    (Timeout_Start timeoutConsensus (consensusTimeout c)) c) w).

(** [onCommitted] *)
Definition onCommitted (w : World) (msg : RawMessage) : CommittedExit * World :=
  match onCommittedChecks w msg with
  | inl rejected => rejected
  | inr (recvMsg, aggSig, mask, blockObj, w) =>
      let w := onCommittedStore w recvMsg aggSig mask blockObj in
      let w := tryCatchup w in
      onCommittedFinish w recvMsg
  end.

End Handlers.

(** ** A small committee to run the handlers on

    Four members, quorum at three enabled bits.  A wire message is the
    block number, the view, one byte that fills the block hash, and the
    payload; anything shorter does not parse and leaves a nil message. *)
Module Demo.

Definition byteZ (b : byte) : Z := Z.of_N (Byte.to_N b).

Definition parse (raw : RawMessage) : ParseResult :=
  match raw with
  | n :: v :: h :: payload =>
      ParseOk (mkFBFTMessage (byteZ v) (byteZ n) (repeat h 32) payload [n; h])
  | _ => ParseErr None "message too short"%string
  end.

Definition decodeBlock (raw : bytes) : option types_Block :=
  match raw with
  | [n; h] => Some (mkBlock 0 (repeat h 32) (byteZ n) 1)
  | _ => None
  end.

Definition signWith (c : Consensus) (t : MessageType) (payload : bytes)
  (keys : list PrivateKeyWrapper) : option NetworkMessage :=
  if forallb (fun k => negb (bytes_Equal (Pri k) [])) keys
  then Some (mkNetworkMessage t (flat_map Pri keys ++ payload))
  else None.

(** Catch-up commits the current block once its commit signature is stored. *)
Definition catchup (w : World) : World :=
  match ReadCommitSig (cons w) (blockNum (cons w)) with
  | Some _ => updC (fun c => set_blockNum (blockNum c + 1)%Z c) w
  | None => w
  end.

Definition env : External := {|
  BLSSignatureSizeInBytes := 96;
  ParseFBFTMessage := parse;
  DeserializeSign := Some;
  IsQuorumAchievedByMask := fun m => 3 <=? CountEnabled m;
  AggregatePublic := Bitmap;
  VerifyHash := fun sig _ _ => match sig with x01 :: _ => true | _ => false end;
  ConstructCommitPayload := fun _ h _ _ => h;
  rlp_DecodeBytes := decodeBlock;
  onAnnounceSanityChecks := fun _ _ => true;
  onPreparedSanityChecks := fun _ _ _ => true;
  checkViewID := fun _ m => if (ViewID m =? 1)%Z then None else Some "view mismatch"%string;
  IsValidatorInCommittee := fun _ pub => negb (bytes_Equal pub []);
  construct := signWith;
  p2p_ConstructMessage := fun b => x11 :: b;
  SendWithoutRetry := fun _ _ => None;
  tryCatchup := catchup
|}.

Definition sig : bytes := x01 :: repeat x00 95.

Definition keys : list PrivateKeyWrapper :=
  [mkKey [x0a] [x1a]; mkKey [] [x1b]; mkKey [x0c] [x1c]].

Definition consensus0 (num : Z) (mode : Mode) (ch : SignalChan) : Consensus :=
  mkConsensus num emptyHash [] FBFTAnnounce mode None None None None false keys
    (Some (fun _ => None))
    (mkLog [] [mkBlock 0 (repeat xaa 32) 5 1] [])
    ∅ ch
    [(timeoutConsensus, false); (timeoutBootstrap, true)]
    false.

Definition node : World := mkWorld (consensus0 5 Normal ChanEmpty) [] [].
Definition nodeViewChanging : World := mkWorld (consensus0 5 ViewChanging ChanEmpty) [] [].
Definition nodeAtZero : World := mkWorld (consensus0 0 Normal ChanEmpty) [] [].

(** Messages for block 5 in view 1 with hash aa..aa. *)
Definition withBitmap (n : byte) (bitmap : bytes) : RawMessage :=
  [n; x01; xaa] ++ sig ++ bitmap.

Definition threeSigners : RawMessage := withBitmap x05 [x07].
Definition fourSigners : RawMessage := withBitmap x05 [x0f].
Definition twoSigners : RawMessage := withBitmap x05 [x03].
Definition twoSignersAhead : RawMessage := withBitmap x09 [x03].
Definition threeSignersBehind : RawMessage := withBitmap x04 [x07].
Definition threeSignersStale : RawMessage := withBitmap x03 [x07].
Definition unparseable : RawMessage := [x05].

(** The node with a longer blob of nine signers already stored for block 5. *)
Definition nodeLongerStored : World :=
  updC (WriteCommitSig 5 (sig ++ [xff; x01])) node.

End Demo.

(** ** Auxiliary notions for the statements below *)

(** The message as [onPrepared] logs it, with its block bytes dropped. *)
Definition stripBlock (m : FBFTMessage) : FBFTMessage :=
  mkFBFTMessage (ViewID m) (BlockNum m) (BlockHash m) (Payload m) [].

(** The consensus object once [onPrepared] has recorded a verified block:
    block marked verified and added, block bytes kept, message logged. *)
Definition recordPrepared (recvMsg : FBFTMessage) (blockObj : types_Block)
  (c : Consensus) : Consensus :=
  set_FBFTLog
    (FBFTLog_AddMessage (stripBlock recvMsg)
       (FBFTLog_AddBlock blockObj (FBFTLog_MarkBlockVerified blockObj (FBFTLog c))))
    (set_block (Block recvMsg) c).

(** A mask pointer field is nil or points into the heap. *)
Definition maskRefValid (h : list Mask) (r : option MaskRef) : bool :=
  match r with
  | Some p => p <? length h
  | None => true
  end.

Definition maskRefsValid (w : World) : bool :=
  maskRefValid (heap w) (prepareBitmap (cons w))
  && maskRefValid (heap w) (commitBitmap (cons w)).

(** Whether a timer is in the timer map. *)
Definition Timeout_has (k : TimeoutType) (ts : Timeouts) : bool :=
  existsb (fun e => TimeoutType_eqb (fst e) k) ts.

(** More nodes and a transport that fails. *)
Module Demo2.
Import Demo.

(** The transport refuses the message signed with key 0c. *)
Definition flaky : External := {|
  BLSSignatureSizeInBytes := @BLSSignatureSizeInBytes env;
  ParseFBFTMessage := @ParseFBFTMessage env;
  DeserializeSign := @DeserializeSign env;
  IsQuorumAchievedByMask := @IsQuorumAchievedByMask env;
  AggregatePublic := @AggregatePublic env;
  VerifyHash := @VerifyHash env;
  ConstructCommitPayload := @ConstructCommitPayload env;
  rlp_DecodeBytes := @rlp_DecodeBytes env;
  onAnnounceSanityChecks := @onAnnounceSanityChecks env;
  onPreparedSanityChecks := @onPreparedSanityChecks env;
  checkViewID := @checkViewID env;
  IsValidatorInCommittee := @IsValidatorInCommittee env;
  construct := @construct env;
  p2p_ConstructMessage := @p2p_ConstructMessage env;
  SendWithoutRetry := fun _ wire =>
    match wire with
    | _ :: x0c :: _ => Some "peer unreachable"%string
    | _ => None
    end;
  tryCatchup := @tryCatchup env
|}.

Definition nodeListening : World := mkWorld (consensus0 5 Listening ChanEmpty) [] [].

Definition threeMessages : list NetworkMessage :=
  [mkNetworkMessage PREPARE [x0a]; mkNetworkMessage PREPARE [x0c];
   mkNetworkMessage PREPARE [x0e]].

(** The node with a block hash already chosen. *)
Definition nodeWithHash : World := updC (set_blockHash (repeat xbb 32)) node.

(** A committed message of three signers other than the first three. *)
Definition otherThreeSigners : RawMessage := withBitmap x05 [x0e].

(** A committed message for block 9, whose block is not in the log. *)
Definition fourSignersAhead : RawMessage := withBitmap x09 [x0f].

(** The node that also holds block 9 with hash cc..cc in its log. *)
Definition nodeWithFutureBlock : World :=
  updC (fun c => set_FBFTLog
                   (FBFTLog_AddBlock (mkBlock 0 (repeat xcc 32) 9 1) (FBFTLog c)) c) node.
Definition committedAhead : RawMessage := [x09; x01; xcc] ++ sig ++ [x0f].


(** A message for block 0. *)
Definition threeSignersAtZero : RawMessage := withBitmap x00 [x07].

End Demo2.

(** * Properties *)

(** Case analysis on the next test of a handler. *)
Ltac break_match :=
  match goal with
  | |- context [match ?x with _ => _ end] => destruct x eqn:?
  end.

Ltac break_match_in H :=
  match type of H with
  | context [match ?x with _ => _ end] => destruct x eqn:?
  end.

Section Properties.
Context {E : External}.

(** ** The heap *)

Lemma deref_store (p : MaskRef) (m : Mask) (w : World) :
  p < length (heap w) -> deref (store p m w) p = m.
Proof.
  intros H; unfold deref, store; cbn [heap].
  rewrite list_lookup_insert_eq by exact H. reflexivity.
Qed.

(** ** Reading the payload *)

(** The signature and bitmap of a payload, as the reader splits it. *)
Lemma ReadSignatureBitmapPayload_cases (w : World) (payload : bytes) :
  ReadSignatureBitmapPayload w payload 0 = (None, w)
  \/ exists aggSig,
       ReadSignatureBitmapPayload w payload 0
       = (Some (aggSig, length (heap w)),
          mkWorld (cons w) (heap w ++ [mkMask (drop BLSSignatureSizeInBytes payload)]) (sent w))
       /\ BLSSignatureSizeInBytes <= length payload.
Proof.
  unfold ReadSignatureBitmapPayload.
  destruct (length payload <? 0 + BLSSignatureSizeInBytes) eqn:Hlen; [left; reflexivity|].
  apply Nat.ltb_ge in Hlen. rewrite drop_0.
  destruct (DeserializeSign (take BLSSignatureSizeInBytes payload)) as [aggSig|];
    [|left; reflexivity].
  right; exists aggSig; split; [reflexivity|exact Hlen].
Qed.

Lemma deref_fresh (c : Consensus) (h : list Mask) (s : list bytes) (m : Mask) :
  deref (mkWorld c (h ++ [m]) s) (length h) = m.
Proof.
  unfold deref; cbn [heap].
  rewrite (list_lookup_middle h [] m (length h) eq_refl). reflexivity.
Qed.

(** ** The resync trigger *)

Lemma spinUpStateSync_empty (w : World) :
  BlockNumLowChan (cons w) = ChanEmpty ->
  spinUpStateSync w
  = mkWorld (set_consensusTimeout (Timeout_StopAll (consensusTimeout (cons w)))
               (set_current Syncing (set_BlockNumLowChan ChanPending (cons w))))
            (heap w) (sent w).
Proof. intros H; unfold spinUpStateSync; rewrite H; reflexivity. Qed.

Lemma spinUpStateSync_pending (w : World) :
  BlockNumLowChan (cons w) = ChanPending -> spinUpStateSync w = w.
Proof. intros H; unfold spinUpStateSync; rewrite H; reflexivity. Qed.

Lemma spinUpStateSync_chan (w : World) :
  BlockNumLowChan (cons (spinUpStateSync w)) = ChanPending.
Proof.
  destruct (BlockNumLowChan (cons w)) eqn:H.
  - rewrite spinUpStateSync_empty by exact H; reflexivity.
  - rewrite spinUpStateSync_pending by exact H; exact H.
Qed.

(** What the trigger leaves alone. *)
Lemma spinUpStateSync_frame (w : World) :
  let w' := spinUpStateSync w in
  blockNum (cons w') = blockNum (cons w)
  /\ blockHash (cons w') = blockHash (cons w)
  /\ block (cons w') = block (cons w)
  /\ phase (cons w') = phase (cons w)
  /\ aggregatedPrepareSig (cons w') = aggregatedPrepareSig (cons w)
  /\ prepareBitmap (cons w') = prepareBitmap (cons w)
  /\ aggregatedCommitSig (cons w') = aggregatedCommitSig (cons w)
  /\ commitBitmap (cons w') = commitBitmap (cons w)
  /\ FBFTLog (cons w') = FBFTLog (cons w)
  /\ Blockchain (cons w') = Blockchain (cons w)
  /\ heap w' = heap w
  /\ sent w' = sent w.
Proof.
  unfold spinUpStateSync; destruct (trySend (BlockNumLowChan (cons w)));
    cbn; repeat split; reflexivity.
Qed.


(** ** Constructing the outbound messages *)

Lemma constructEach_acc (c : Consensus) (t : MessageType) (payload : bytes)
  (priKeys : list PrivateKeyWrapper) (acc : list NetworkMessage) :
  constructEach c t payload priKeys acc
  = acc ++ omap (fun key => construct c t payload [key]) priKeys.
Proof.
  revert acc; induction priKeys as [|key rest IH]; intros acc; cbn.
  - rewrite app_nil_r; reflexivity.
  - destruct (construct c t payload [key]) as [m|]; rewrite IH.
    + rewrite <- app_assoc; reflexivity.
    + reflexivity.
Qed.

Lemma length_omap_le {A B : Type} (f : A -> option B) (l : list A) :
  length (omap f l) <= length l.
Proof.
  induction l as [|a l IH]; cbn; [lia|]. destruct (f a); cbn; lia.
Qed.

Lemma length_omap_filter {A B : Type} (f : A -> option B) (l : list A) :
  length (omap f l)
  = length (List.filter (fun a => match f a with Some _ => true | None => false end) l).
Proof.
  induction l as [|a l IH]; cbn; [reflexivity|].
  destruct (f a) as [b|]; cbn; [rewrite IH; reflexivity|exact IH].
Qed.

(** ** Sending *)

Lemma broadcast_cons_heap (p2pMsgs : list NetworkMessage) (w : World) :
  cons (fst (broadcastConsensusP2pMessages w p2pMsgs)) = cons w
  /\ heap (fst (broadcastConsensusP2pMessages w p2pMsgs)) = heap w.
Proof.
  revert w; induction p2pMsgs as [|m rest IH]; intros w; cbn [broadcastConsensusP2pMessages].
  - split; reflexivity.
  - destruct (negb (Mode_eqb (current (cons w)) Listening)); [|apply IH].
    destruct (SendWithoutRetry (sent w) (p2p_ConstructMessage (Bytes m))).
    + split; reflexivity.
    + destruct (IH (pushSent (p2p_ConstructMessage (Bytes m)) w)) as [Hc Hh].
      rewrite Hc, Hh; split; reflexivity.
Qed.

Lemma broadcast_all_sent (p2pMsgs : list NetworkMessage) (w : World) :
  current (cons w) <> Listening ->
  (forall before wire, SendWithoutRetry before wire = None) ->
  sent (fst (broadcastConsensusP2pMessages w p2pMsgs))
  = sent w ++ map (fun m => p2p_ConstructMessage (Bytes m)) p2pMsgs.
Proof.
  intros Hmode Hsend; revert w Hmode.
  induction p2pMsgs as [|m rest IH]; intros w Hmode; cbn [broadcastConsensusP2pMessages map].
  - rewrite app_nil_r; reflexivity.
  - destruct (current (cons w)) eqn:Hcur; try congruence; cbn [Mode_eqb negb];
      rewrite Hsend, IH by (cbn; congruence); cbn [sent pushSent];
      rewrite <- app_assoc; reflexivity.
Qed.

Lemma sendCommitMessages_cons_heap (w : World) (blockObj : types_Block) :
  cons (sendCommitMessages w blockObj) = cons w
  /\ heap (sendCommitMessages w blockObj) = heap w.
Proof. unfold sendCommitMessages; apply broadcast_cons_heap. Qed.

(** ** onPrepared *)



(** C2, as the code has it: a prepared message whose bitmap fails the quorum
    check leaves the block hash, the phase, the aggregated prepare signature
    and the prepare bitmap as they were, mutates no mask already on the heap
    and sends nothing.  The consensus object as a whole is the one the
    block-number gate left: untouched when the message is not ahead of the
    node, and the one [spinUpStateSync] produced when it is. *)
Theorem onPrepared_no_quorum (w : World) (msg : RawMessage) (recvMsg : FBFTMessage) :
  ParseFBFTMessage msg = ParseOk recvMsg ->
  IsQuorumAchievedByMask (mkMask (drop BLSSignatureSizeInBytes (Payload recvMsg))) = false ->
  let w' := snd (onPrepared w msg) in
  blockHash (cons w') = blockHash (cons w)
  /\ phase (cons w') = phase (cons w)
  /\ aggregatedPrepareSig (cons w') = aggregatedPrepareSig (cons w)
  /\ prepareBitmap (cons w') = prepareBitmap (cons w)
  /\ sent w' = sent w
  /\ (forall p m, heap w !! p = Some m -> heap w' !! p = Some m)
  /\ cons w' = cons (if (BlockNum recvMsg >? blockNum (cons w))%Z
                     then spinUpStateSync w else w)
  /\ ((BlockNum recvMsg <= blockNum (cons w))%Z -> cons w' = cons w).
Proof.
  intros Hparse Hquorum w'.
  assert (Hmain : sent w' = sent w
                  /\ (forall p m, heap w !! p = Some m -> heap w' !! p = Some m)
                  /\ cons w' = cons (if (BlockNum recvMsg >? blockNum (cons w))%Z
                                     then spinUpStateSync w else w)).
  { subst w'; unfold onPrepared; rewrite Hparse.
    destruct (BlockNum recvMsg <? blockNum (cons w))%Z eqn:Hstale.
    - apply Z.ltb_lt in Hstale.
      replace (BlockNum recvMsg >? blockNum (cons w))%Z with false
        by (symmetry; rewrite Z.gtb_ltb; apply Z.ltb_ge; lia).
      cbn; auto.
    - set (w0 := if (BlockNum recvMsg >? blockNum (cons w))%Z
                 then spinUpStateSync w else w).
      assert (Hh : heap w0 = heap w /\ sent w0 = sent w).
      { subst w0; destruct (BlockNum recvMsg >? blockNum (cons w))%Z; [|auto].
        pose proof (spinUpStateSync_frame w) as F; cbn zeta in F; tauto. }
      destruct Hh as [Hh Hs].
      destruct (ReadSignatureBitmapPayload_cases w0 (Payload recvMsg))
        as [Hr|[aggSig [Hr _]]]; rewrite Hr.
      + cbn; rewrite Hh, Hs; auto.
      + rewrite deref_fresh, Hquorum; cbn. rewrite Hh, Hs.
        split; [reflexivity|]. split; [|reflexivity].
        intros p m Hp. rewrite lookup_app_l; [exact Hp|].
        eapply lookup_lt_Some; exact Hp. }
  destruct Hmain as (Hsent & Hheap & Hcons).
  assert (Hfields : blockHash (cons w') = blockHash (cons w)
                    /\ phase (cons w') = phase (cons w)
                    /\ aggregatedPrepareSig (cons w') = aggregatedPrepareSig (cons w)
                    /\ prepareBitmap (cons w') = prepareBitmap (cons w)).
  { rewrite Hcons. destruct (BlockNum recvMsg >? blockNum (cons w))%Z; [|auto].
    pose proof (spinUpStateSync_frame w) as F; cbn zeta in F; tauto. }
  destruct Hfields as (H1 & H2 & H3 & H4).
  repeat (split; [assumption|]).
  intros Hle. rewrite Hcons.
  replace (BlockNum recvMsg >? blockNum (cons w))%Z with false
    by (symmetry; rewrite Z.gtb_ltb; apply Z.ltb_ge; lia).
  reflexivity.
Qed.

(** ** onAnnounce *)

(** C5, what the code does: when the parser reports an error and hands back
    a nil message, the error branch of [onAnnounce] reads the block number
    through that nil pointer and the handler dies instead of returning. *)
Theorem onAnnounce_unparseable_nil_dereference (w : World) (msg : RawMessage) (err : Error) :
  ParseFBFTMessage msg = ParseErr None err ->
  onAnnounce w msg = Panicked.
Proof. intros Hparse; unfold onAnnounce; rewrite Hparse; reflexivity. Qed.

(** The sibling handlers log the parse error without touching the message. *)
Lemma onPrepared_unparseable (w : World) (msg : RawMessage)
  (partial : option FBFTMessage) (err : Error) :
  ParseFBFTMessage msg = ParseErr partial err ->
  onPrepared w msg = (PreparedUnparseable, w).
Proof. intros Hparse; unfold onPrepared; rewrite Hparse; reflexivity. Qed.

Lemma onCommitted_unparseable (w : World) (msg : RawMessage)
  (partial : option FBFTMessage) (err : Error) :
  ParseFBFTMessage msg = ParseErr partial err ->
  onCommitted w msg = (CommittedUnparseable, w).
Proof.
  intros Hparse; unfold onCommitted, onCommittedChecks; rewrite Hparse; reflexivity.
Qed.

(** C4: an announce message that parses and passes the sanity checks is
    added to the FBFT log and its hash becomes the current block hash.  In
    ViewChanging mode the handler stops there: nothing is sent and the phase
    stays.  Otherwise, when the view-ID check passes, the PREPARE messages
    built for the committee keys go to the broadcaster (which, outside
    Listening mode and with a transport that takes every message, sends
    each of them) and the phase becomes Prepare. *)
Theorem onAnnounce_prepare_unless_view_changing
  (w : World) (msg : RawMessage) (recvMsg : FBFTMessage) :
  ParseFBFTMessage msg = ParseOk recvMsg ->
  onAnnounceSanityChecks (cons w) recvMsg = true ->
  let w1 := updC (set_blockHash (BlockHash recvMsg))
              (updC (fun c => set_FBFTLog (FBFTLog_AddMessage recvMsg (FBFTLog c)) c) w) in
  let p2pMsgs := constructP2pMessages (cons (StartFinalityCount w1)) PREPARE []
                   (getPriKeysInCommittee (cons (StartFinalityCount w1))) in
  (current (cons w) = ViewChanging ->
     onAnnounce w msg = Returned AnnounceViewChanging w1
     /\ messages (FBFTLog (cons w1)) = recvMsg :: messages (FBFTLog (cons w))
     /\ blockHash (cons w1) = BlockHash recvMsg
     /\ sent w1 = sent w
     /\ phase (cons w1) = phase (cons w))
  /\ (current (cons w) <> ViewChanging ->
      checkViewID (cons w1) recvMsg = None ->
      exists w',
        onAnnounce w msg = Returned AnnouncePrepared w'
        /\ w' = switchPhase FBFTPrepare
                  (fst (broadcastConsensusP2pMessages (StartFinalityCount w1) p2pMsgs))
        /\ phase (cons w') = FBFTPrepare
        /\ messages (FBFTLog (cons w')) = recvMsg :: messages (FBFTLog (cons w))
        /\ blockHash (cons w') = BlockHash recvMsg
        /\ (current (cons w) <> Listening ->
            (forall before wire, SendWithoutRetry before wire = None) ->
            sent w' = sent w ++ map (fun m => p2p_ConstructMessage (Bytes m)) p2pMsgs)).
Proof.
  intros Hparse Hsane w1 p2pMsgs; split.
  - intros Hvc. unfold onAnnounce; rewrite Hparse, Hsane; cbn [negb].
    fold w1. unfold IsViewChangingMode.
    replace (current (cons w1)) with ViewChanging by (symmetry; exact Hvc).
    cbn. auto.
  - intros Hvc Hview.
    exists (switchPhase FBFTPrepare
              (fst (broadcastConsensusP2pMessages (StartFinalityCount w1) p2pMsgs))).
    split.
    { unfold onAnnounce; rewrite Hparse, Hsane; cbn [negb]. fold w1.
      unfold IsViewChangingMode.
      replace (current (cons w1)) with (current (cons w)) by reflexivity.
      destruct (current (cons w)) eqn:Hcur; try congruence; cbn [Mode_eqb];
        rewrite Hview; reflexivity. }
    split; [reflexivity|].
    destruct (broadcast_cons_heap p2pMsgs (StartFinalityCount w1)) as [Hc _].
    unfold switchPhase; cbn [cons updC]. rewrite Hc.
    split; [reflexivity|]. split; [reflexivity|]. split; [reflexivity|].
    intros Hlisten Hsend. cbn [sent updC].
    rewrite broadcast_all_sent; [reflexivity|exact Hlisten|exact Hsend].
Qed.

(** ** onCommitted *)

Lemma uint64_sub_pred (n : Z) :
  (1 <= n < uint64_modulus)%Z -> uint64_sub n 1 = (n - 1)%Z.
Proof. intros H; unfold uint64_sub; apply Z.mod_small; lia. Qed.

Lemma uint64_sub_zero : uint64_sub 0 1 = (2 ^ 64 - 1)%Z.
Proof. reflexivity. Qed.

Lemma onCommittedFinish_exit (w : World) (recvMsg : FBFTMessage) :
  fst (onCommittedFinish w recvMsg) <> CommittedWrongBlockNum
  /\ fst (onCommittedFinish w recvMsg) <> CommittedUnparseable.
Proof.
  unfold onCommittedFinish; repeat break_match; cbn [fst]; split; discriminate.
Qed.

Lemma onCommittedFinish_frame (w : World) (recvMsg : FBFTMessage) :
  let w' := snd (onCommittedFinish w recvMsg) in
  Blockchain (cons w') = Blockchain (cons w)
  /\ commitBitmap (cons w') = commitBitmap (cons w)
  /\ heap w' = heap w.
Proof.
  unfold onCommittedFinish; repeat break_match; cbn; repeat split; reflexivity.
Qed.

(** A stale committed message is dropped where the gate stands. *)
Lemma onCommitted_stale (w : World) (msg : RawMessage) (recvMsg : FBFTMessage) :
  ParseFBFTMessage msg = ParseOk recvMsg ->
  (BlockNum recvMsg < uint64_sub (blockNum (cons w)) 1)%Z ->
  onCommitted w msg = (CommittedWrongBlockNum, w).
Proof.
  intros Hparse Hlt; unfold onCommitted, onCommittedChecks; rewrite Hparse.
  replace (BlockNum recvMsg <? uint64_sub (blockNum (cons w)) 1)%Z with true
    by (symmetry; apply Z.ltb_lt; exact Hlt).
  reflexivity.
Qed.

(** Past the gate no return of [onCommitted] is the stale one. *)
Lemma onCommitted_fresh (w : World) (msg : RawMessage) (recvMsg : FBFTMessage) :
  ParseFBFTMessage msg = ParseOk recvMsg ->
  (uint64_sub (blockNum (cons w)) 1 <= BlockNum recvMsg)%Z ->
  fst (onCommitted w msg) <> CommittedWrongBlockNum
  /\ fst (onCommitted w msg) <> CommittedUnparseable.
Proof.
  intros Hparse Hge; unfold onCommitted.
  destruct (onCommittedChecks w msg) as [[e w']|[[[[r s] p] b] w1]] eqn:Hc;
    [|apply onCommittedFinish_exit].
  unfold onCommittedChecks in Hc; rewrite Hparse in Hc.
  replace (BlockNum recvMsg <? uint64_sub (blockNum (cons w)) 1)%Z with false in Hc
    by (symmetry; apply Z.ltb_ge; exact Hge).
  repeat break_match_in Hc; try discriminate.
  all: injection Hc as <- <-; split; discriminate.
Qed.

(** C3, as the code has it: the gate of [onCommitted] compares the message's
    block number with the node's block number minus one taken modulo 2^64.
    A message strictly below that bound, and no other, is dropped as stale,
    before anything is verified and with the state untouched; a message
    exactly at the bound continues.  For a node at block 1 or above the
    bound is the plain difference. *)
Theorem onCommitted_block_number_gate (w : World) (msg : RawMessage) (recvMsg : FBFTMessage) :
  ParseFBFTMessage msg = ParseOk recvMsg ->
  let bound := uint64_sub (blockNum (cons w)) 1 in
  (fst (onCommitted w msg) = CommittedWrongBlockNum <-> (BlockNum recvMsg < bound)%Z)
  /\ ((BlockNum recvMsg < bound)%Z -> onCommitted w msg = (CommittedWrongBlockNum, w))
  /\ (BlockNum recvMsg = bound ->
      fst (onCommitted w msg) <> CommittedWrongBlockNum
      /\ fst (onCommitted w msg) <> CommittedUnparseable)
  /\ ((1 <= blockNum (cons w) < uint64_modulus)%Z -> bound = (blockNum (cons w) - 1)%Z).
Proof.
  intros Hparse bound.
  split; [split|split; [|split]].
  - intros Hexit. destruct (Z_lt_ge_dec (BlockNum recvMsg) bound) as [Hlt|Hge]; [exact Hlt|].
    exfalso. apply (proj1 (onCommitted_fresh w msg recvMsg Hparse ltac:(subst bound; lia))).
    exact Hexit.
  - intros Hlt. rewrite (onCommitted_stale w msg recvMsg Hparse Hlt). reflexivity.
  - apply onCommitted_stale; exact Hparse.
  - intros Heq. apply (onCommitted_fresh w msg recvMsg Hparse). subst bound; lia.
  - apply uint64_sub_pred.
Qed.

(** C9: the bound of the stale gate is computed in wrapping 64-bit
    arithmetic.  For a node at block 0 it is 2^64 - 1, and every committed
    message with a block number below 2^64 - 1 is dropped as stale. *)
Theorem onCommitted_gate_wraps_at_zero (w : World) (msg : RawMessage) (recvMsg : FBFTMessage) :
  ParseFBFTMessage msg = ParseOk recvMsg ->
  blockNum (cons w) = 0%Z ->
  (BlockNum recvMsg < 2 ^ 64 - 1)%Z ->
  uint64_sub (blockNum (cons w)) 1 = (2 ^ 64 - 1)%Z
  /\ onCommitted w msg = (CommittedWrongBlockNum, w).
Proof.
  intros Hparse Hzero Hlt.
  assert (Hb : uint64_sub (blockNum (cons w)) 1 = (2 ^ 64 - 1)%Z)
    by (rewrite Hzero; apply uint64_sub_zero).
  split; [exact Hb|].
  apply (onCommitted_stale w msg recvMsg Hparse). rewrite Hb; exact Hlt.
Qed.

(** What an accepted committed message has gone through. *)
Lemma onCommittedChecks_accepted (w : World) (msg : RawMessage)
  (recvMsg : FBFTMessage) (aggSig : Sign) (mask : MaskRef)
  (blockObj : types_Block) (w1 : World) :
  onCommittedChecks w msg = inr (recvMsg, aggSig, mask, blockObj, w1) ->
  ParseFBFTMessage msg = ParseOk recvMsg
  /\ cons w1 = cons (if (BlockNum recvMsg >? blockNum (cons w))%Z
                     then spinUpStateSync w else w)
  /\ mask = length (heap w)
  /\ heap w1 = heap w ++ [mkMask (drop BLSSignatureSizeInBytes (Payload recvMsg))]
  /\ BLSSignatureSizeInBytes <= length (Payload recvMsg).
Proof.
  unfold onCommittedChecks; intros H.
  destruct (ParseFBFTMessage msg) as [r|? ?]; [|discriminate].
  destruct (BlockNum r <? uint64_sub (blockNum (cons w)) 1)%Z; [discriminate|].
  remember (if (BlockNum r >? blockNum (cons w))%Z then spinUpStateSync w else w)
    as w0 eqn:Hw0.
  assert (Hh : heap w0 = heap w).
  { subst w0; destruct (BlockNum r >? blockNum (cons w))%Z; [|reflexivity].
    pose proof (spinUpStateSync_frame w) as F; cbn zeta in F; tauto. }
  destruct (ReadSignatureBitmapPayload_cases w0 (Payload r)) as [Hr|[s [Hr Hlen]]];
    rewrite Hr in H; [discriminate|].
  repeat break_match_in H; try discriminate.
  injection H as <- <- <- <- <-. cbn [cons heap].
  rewrite Hh, Hw0. repeat split; auto.
Qed.

Lemma onCommittedChecks_mask (w : World) (msg : RawMessage)
  (recvMsg : FBFTMessage) (aggSig : Sign) (mask : MaskRef)
  (blockObj : types_Block) (w1 : World) :
  onCommittedChecks w msg = inr (recvMsg, aggSig, mask, blockObj, w1) ->
  deref w1 mask = mkMask (drop BLSSignatureSizeInBytes (Payload recvMsg))
  /\ mask < length (heap w1)
  /\ Blockchain (cons w1) = Blockchain (cons w).
Proof.
  intros H; destruct (onCommittedChecks_accepted _ _ _ _ _ _ _ H)
    as (_ & Hc & Hm & Hh & _).
  split; [|split].
  - unfold deref; rewrite Hh, Hm.
    rewrite (list_lookup_middle (heap w) [] _ (length (heap w)) eq_refl). reflexivity.
  - rewrite Hh, Hm, length_app; cbn; lia.
  - rewrite Hc. destruct (BlockNum recvMsg >? blockNum (cons w))%Z; [|reflexivity].
    pose proof (spinUpStateSync_frame w) as F; cbn zeta in F; tauto.
Qed.

Lemma onCommitted_accepted (w : World) (msg : RawMessage)
  (recvMsg : FBFTMessage) (aggSig : Sign) (mask : MaskRef)
  (blockObj : types_Block) (w1 : World) :
  onCommittedChecks w msg = inr (recvMsg, aggSig, mask, blockObj, w1) ->
  onCommitted w msg
  = onCommittedFinish (tryCatchup (onCommittedStore w1 recvMsg aggSig mask blockObj)) recvMsg.
Proof. intros H; unfold onCommitted; rewrite H; reflexivity. Qed.

(** The store step, case by case on what was persisted before. *)
Lemma onCommittedStore_spec (w1 : World) (recvMsg : FBFTMessage) (aggSig : Sign)
  (mask : MaskRef) (blockObj : types_Block) :
  deref w1 mask = mkMask (drop BLSSignatureSizeInBytes (Payload recvMsg)) ->
  mask < length (heap w1) ->
  let mid := onCommittedStore w1 recvMsg aggSig mask blockObj in
  let num := NumberU64 blockObj in
  commitBitmap (cons mid) = Some mask
  /\ match ReadCommitSig (cons w1) num with
     | Some old =>
         if length old =? length (Payload recvMsg) then
           deref mid mask = mkMask (drop BLSSignatureSizeInBytes old)
           /\ ReadCommitSig (cons mid) num
              = Some (if signers old <? signers (Payload recvMsg)
                      then Payload recvMsg else old)
         else
           deref mid mask = mkMask (drop BLSSignatureSizeInBytes (Payload recvMsg))
           /\ ReadCommitSig (cons mid) num = Some (Payload recvMsg)
     | None =>
         deref mid mask = mkMask (drop BLSSignatureSizeInBytes (Payload recvMsg))
         /\ ReadCommitSig (cons mid) num = Some (Payload recvMsg)
     end.
Proof.
  intros Hd Hp mid num; subst mid num; unfold onCommittedStore, ReadCommitSig.
  cbn [cons updC set_commitBitmap set_aggregatedCommitSig set_FBFTLog Blockchain].
  set (w2 := updC _ (updC _ (updC _ w1))).
  assert (Hd2 : deref w2 mask = deref w1 mask) by reflexivity.
  destruct (Blockchain (cons w1) !! NumberU64 blockObj) as [old|] eqn:Hold.
  - destruct (length old =? length (Payload recvMsg)) eqn:Hlen.
    + rewrite deref_store by exact Hp. rewrite Hd2, Hd.
      unfold CountEnabled, SetMask; cbn [Bitmap]. fold (signers old) (signers (Payload recvMsg)).
      destruct (signers old <? signers (Payload recvMsg)).
      * cbn [cons updC WriteCommitSig set_Blockchain Blockchain commitBitmap store].
        split; [reflexivity|]. split.
        -- unfold deref; cbn [heap updC store].
           rewrite list_lookup_insert_eq by exact Hp. reflexivity.
        -- apply lookup_insert_eq.
      * cbn [cons store commitBitmap]. split; [reflexivity|]. split.
        -- rewrite deref_store by exact Hp. reflexivity.
        -- exact Hold.
    + cbn [cons updC WriteCommitSig set_Blockchain Blockchain commitBitmap].
      split; [reflexivity|]. split; [rewrite <- Hd; reflexivity|apply lookup_insert_eq].
  - cbn [cons updC WriteCommitSig set_Blockchain Blockchain commitBitmap].
    split; [reflexivity|]. split; [rewrite <- Hd; reflexivity|apply lookup_insert_eq].
Qed.

(** C8: the mask pointer stored into [commitBitmap] is the pointer the merge
    check then writes through.  The mask is built from the received bitmap;
    when a commit signature of the same byte length is already persisted,
    the state handed to [tryCatchup] has [commitBitmap] pointing at a mask
    that holds the persisted bitmap, whichever payload stays persisted, and
    so does the state the handler returns if catch-up leaves that pointer
    and its mask alone. *)
Theorem onCommitted_commitBitmap_holds_persisted_bits
  (w : World) (msg : RawMessage) (recvMsg : FBFTMessage) (aggSig : Sign)
  (mask : MaskRef) (blockObj : types_Block) (w1 : World) (old : bytes) :
  onCommittedChecks w msg = inr (recvMsg, aggSig, mask, blockObj, w1) ->
  ReadCommitSig (cons w) (NumberU64 blockObj) = Some old ->
  length old = length (Payload recvMsg) ->
  let mid := onCommittedStore w1 recvMsg aggSig mask blockObj in
  let w' := snd (onCommitted w msg) in
  onCommitted w msg = onCommittedFinish (tryCatchup mid) recvMsg
  /\ Bitmap (deref w1 mask) = drop BLSSignatureSizeInBytes (Payload recvMsg)
  /\ commitBitmap (cons mid) = Some mask
  /\ Bitmap (deref mid mask) = drop BLSSignatureSizeInBytes old
  /\ (commitBitmap (cons (tryCatchup mid)) = commitBitmap (cons mid) ->
      deref (tryCatchup mid) mask = deref mid mask ->
      commitBitmap (cons w') = Some mask
      /\ Bitmap (deref w' mask) = drop BLSSignatureSizeInBytes old).
Proof.
  intros Hacc Hold Hlen mid w'.
  destruct (onCommittedChecks_mask _ _ _ _ _ _ _ Hacc) as (Hd & Hp & Hbc).
  pose proof (onCommittedStore_spec w1 recvMsg aggSig mask blockObj Hd Hp) as Hspec.
  cbn zeta in Hspec. unfold ReadCommitSig in Hspec at 1. rewrite Hbc in Hspec.
  unfold ReadCommitSig in Hold. rewrite Hold in Hspec.
  rewrite Hlen, Nat.eqb_refl in Hspec. destruct Hspec as (Hcb & Hmid & _).
  split; [apply onCommitted_accepted; exact Hacc|].
  split; [rewrite Hd; reflexivity|].
  split; [exact Hcb|].
  split; [subst mid; rewrite Hmid; reflexivity|].
  intros Hptr Hobj. subst w'.
  rewrite (onCommitted_accepted _ _ _ _ _ _ _ Hacc). fold mid.
  destruct (onCommittedFinish_frame (tryCatchup mid) recvMsg) as (_ & Hc & Hh).
  cbn zeta in Hc, Hh. split.
  - rewrite Hc, Hptr. exact Hcb.
  - unfold deref at 1. rewrite Hh. fold (deref (tryCatchup mid) mask).
    rewrite Hobj. subst mid; rewrite Hmid; reflexivity.
Qed.

(** C10: when no commit signature can be read for the block, or the stored
    blob and the received payload differ in byte length, the store step
    writes the received payload without comparing signer counts, whatever
    the stored blob held. *)
Theorem onCommitted_writes_without_comparison
  (w : World) (msg : RawMessage) (recvMsg : FBFTMessage) (aggSig : Sign)
  (mask : MaskRef) (blockObj : types_Block) (w1 : World) :
  onCommittedChecks w msg = inr (recvMsg, aggSig, mask, blockObj, w1) ->
  (forall old, ReadCommitSig (cons w) (NumberU64 blockObj) = Some old ->
               length old <> length (Payload recvMsg)) ->
  let mid := onCommittedStore w1 recvMsg aggSig mask blockObj in
  onCommitted w msg = onCommittedFinish (tryCatchup mid) recvMsg
  /\ Blockchain (cons mid) = <[NumberU64 blockObj := Payload recvMsg]> (Blockchain (cons w))
  /\ ReadCommitSig (cons mid) (NumberU64 blockObj) = Some (Payload recvMsg)
  /\ (Blockchain (cons (tryCatchup mid)) = Blockchain (cons mid) ->
      ReadCommitSig (cons (snd (onCommitted w msg))) (NumberU64 blockObj)
      = Some (Payload recvMsg)).
Proof.
  intros Hacc Hprior mid.
  destruct (onCommittedChecks_mask _ _ _ _ _ _ _ Hacc) as (Hd & Hp & Hbc).
  assert (Hins : Blockchain (cons mid)
                 = <[NumberU64 blockObj := Payload recvMsg]> (Blockchain (cons w))).
  { subst mid; unfold onCommittedStore, ReadCommitSig.
    cbn [cons updC set_commitBitmap set_aggregatedCommitSig set_FBFTLog Blockchain].
    rewrite Hbc.
    destruct (Blockchain (cons w) !! NumberU64 blockObj) as [old|] eqn:Hold.
    - specialize (Hprior old Hold). apply Nat.eqb_neq in Hprior. rewrite Hprior.
      cbn. rewrite Hbc. reflexivity.
    - cbn. rewrite Hbc. reflexivity. }
  assert (Hread : ReadCommitSig (cons mid) (NumberU64 blockObj) = Some (Payload recvMsg)).
  { unfold ReadCommitSig; rewrite Hins; apply lookup_insert_eq. }
  split; [apply onCommitted_accepted; exact Hacc|].
  split; [exact Hins|]. split; [exact Hread|].
  intros Hframe. rewrite (onCommitted_accepted _ _ _ _ _ _ _ Hacc). fold mid.
  destruct (onCommittedFinish_frame (tryCatchup mid) recvMsg) as (Hb & _ & _).
  cbn zeta in Hb. unfold ReadCommitSig in *. rewrite Hb, Hframe. exact Hread.
Qed.

(** What one accepted committed message leaves persisted for its block, when
    catch-up does not rewrite stored commit signatures. *)
Lemma onCommitted_persisted
  (w : World) (msg : RawMessage) (recvMsg : FBFTMessage) (aggSig : Sign)
  (mask : MaskRef) (blockObj : types_Block) (w1 : World) :
  (forall x, Blockchain (cons (tryCatchup x)) = Blockchain (cons x)) ->
  onCommittedChecks w msg = inr (recvMsg, aggSig, mask, blockObj, w1) ->
  ReadCommitSig (cons (snd (onCommitted w msg))) (NumberU64 blockObj)
  = Some match ReadCommitSig (cons w) (NumberU64 blockObj) with
         | Some old =>
             if length old =? length (Payload recvMsg) then
               if signers old <? signers (Payload recvMsg) then Payload recvMsg else old
             else Payload recvMsg
         | None => Payload recvMsg
         end.
Proof.
  intros Hframe Hacc.
  destruct (onCommittedChecks_mask _ _ _ _ _ _ _ Hacc) as (Hd & Hp & Hbc).
  pose proof (onCommittedStore_spec w1 recvMsg aggSig mask blockObj Hd Hp) as Hspec.
  cbn zeta in Hspec. unfold ReadCommitSig in Hspec at 1. rewrite Hbc in Hspec.
  rewrite (onCommitted_accepted _ _ _ _ _ _ _ Hacc).
  destruct (onCommittedFinish_frame
              (tryCatchup (onCommittedStore w1 recvMsg aggSig mask blockObj)) recvMsg)
    as (Hb & _ & _).
  cbn zeta in Hb. unfold ReadCommitSig in *. rewrite Hb, Hframe.
  destruct Hspec as [_ Hspec].
  destruct (Blockchain (cons w) !! NumberU64 blockObj) as [old|].
  - destruct (length old =? length (Payload recvMsg)); apply Hspec.
  - apply Hspec.
Qed.


End Properties.

(** ** constructP2pMessages *)

(** C7: with aggregate signing the result is the one message [construct]
    builds for all keys, or nothing when it fails; without it the result
    holds, in key order, one message for each key [construct] accepts and
    nothing for the others, so its length is the number of such keys, at
    most the number of keys.  Part of the keys may fail while the others
    yield their messages. *)
Theorem constructP2pMessages_count :
  (forall (E : External) (c : Consensus) (msgType : MessageType)
          (payloadForSign : bytes) (priKeys : list PrivateKeyWrapper),
      let p2pMsgs := constructP2pMessages c msgType payloadForSign priKeys in
      let accepted := fun key => match construct c msgType payloadForSign [key] with
                                 | Some _ => true
                                 | None => false
                                 end in
      if AggregateSig c then
        p2pMsgs = match construct c msgType payloadForSign priKeys with
                  | Some networkMessage => [networkMessage]
                  | None => []
                  end
        /\ length p2pMsgs <= 1
      else
        p2pMsgs = omap (fun key => construct c msgType payloadForSign [key]) priKeys
        /\ length p2pMsgs = length (List.filter accepted priKeys)
        /\ length p2pMsgs <= length priKeys)
  /\ (exists (E : External) (c : Consensus) (msgType : MessageType)
             (payloadForSign : bytes) (priKeys : list PrivateKeyWrapper),
         AggregateSig c = false
         /\ 0 < length (constructP2pMessages c msgType payloadForSign priKeys)
            < length priKeys).
Proof.
  split.
  - intros E c msgType payloadForSign priKeys p2pMsgs accepted.
    subst p2pMsgs; unfold constructP2pMessages.
    destruct (AggregateSig c).
    + destruct (construct c msgType payloadForSign priKeys); cbn; split; (reflexivity || lia).
    + rewrite constructEach_acc; cbn [app].
      split; [reflexivity|]. split; [apply length_omap_filter|apply length_omap_le].
  - exists Demo.env, (cons Demo.node), PREPARE, [], Demo.keys.
    vm_compute. split; [reflexivity|]. split; lia.
Qed.

(** ** The handlers on the small committee *)

Module Examples.
Import Demo.

Lemma catchup_keeps_commit_sigs (x : World) :
  Blockchain (cons (@tryCatchup env x)) = Blockchain (cons x).
Proof.
  cbn [tryCatchup env]; unfold catchup.
  destruct (ReadCommitSig (cons x) (blockNum (cons x))); reflexivity.
Defined.



(** Two signers out of four on a message ahead of the node: no quorum, the
    prepare fields stay and nothing is sent. *)
Lemma onPrepared_no_quorum_witness :
  let w' := snd (@onPrepared env node twoSignersAhead) in
  blockHash (cons w') = blockHash (cons node)
  /\ phase (cons w') = FBFTAnnounce
  /\ aggregatedPrepareSig (cons w') = None
  /\ prepareBitmap (cons w') = None
  /\ sent w' = [].
Proof.
  destruct (@onPrepared_no_quorum env node twoSignersAhead _ eq_refl eq_refl)
    as (H1 & H2 & H3 & H4 & H5 & _).
  repeat split; assumption.
Defined.

(** C2 as stated fails: the same message fails the quorum check, yet the
    node comes out in Syncing mode with a sync signal queued and the
    bootstrap timer stopped, because the resync trigger ran before the
    check. *)
Lemma onPrepared_no_quorum_changes_mode :
  @IsQuorumAchievedByMask env (mkMask [x03]) = false
  /\ fst (@onPrepared env node twoSignersAhead) = PreparedNoQuorum
  /\ current (cons node) = Normal
  /\ current (cons (snd (@onPrepared env node twoSignersAhead))) = Syncing
  /\ BlockNumLowChan (cons node) = ChanEmpty
  /\ BlockNumLowChan (cons (snd (@onPrepared env node twoSignersAhead))) = ChanPending
  /\ Timeout_IsActive timeoutBootstrap (consensusTimeout (cons node)) = true
  /\ Timeout_IsActive timeoutBootstrap
       (consensusTimeout (cons (snd (@onPrepared env node twoSignersAhead)))) = false
  /\ cons (snd (@onPrepared env node twoSignersAhead)) <> cons node.
Proof.
  repeat (split; [vm_compute; reflexivity|]).
  intros H. apply (f_equal current) in H. vm_compute in H. discriminate.
Qed.

(** A node at block 5: block 3 is stale, block 4 is not. *)
Lemma onCommitted_block_number_gate_witness :
  @onCommitted env node threeSignersStale = (CommittedWrongBlockNum, node)
  /\ fst (@onCommitted env node threeSignersBehind) <> CommittedWrongBlockNum.
Proof.
  split.
  - refine (proj1 (proj2 (@onCommitted_block_number_gate env node threeSignersStale _ eq_refl)) _).
    vm_compute; reflexivity.
  - refine (proj1 (proj1 (proj2 (proj2
             (@onCommitted_block_number_gate env node threeSignersBehind _ eq_refl))) _)).
    vm_compute; reflexivity.
Defined.

(** C3 at block 0: the bound wraps, and a committed message for block 5 is
    dropped as stale although 5 is not below 0 - 1; so is one for block 0,
    the node's own block, which [onPrepared] on the same node answers.  The
    resync trigger behind the gate is not reached for the message ahead,
    while [onPrepared] runs it. *)
Lemma onCommitted_stale_at_zero_counterexample :
  @ParseFBFTMessage env threeSigners
  = ParseOk (mkFBFTMessage 1 5 (repeat xaa 32) (sig ++ [x07]) [x05; xaa])
  /\ blockNum (cons nodeAtZero) = 0%Z
  /\ @onCommitted env nodeAtZero threeSigners = (CommittedWrongBlockNum, nodeAtZero)
  /\ ~ (5 < blockNum (cons nodeAtZero) - 1)%Z
  /\ BlockNumLowChan (cons (snd (@onPrepared env nodeAtZero threeSigners))) = ChanPending
  /\ @onCommitted env nodeAtZero Demo2.threeSignersAtZero
     = (CommittedWrongBlockNum, nodeAtZero)
  /\ fst (@onPrepared env nodeAtZero Demo2.threeSignersAtZero) = PreparedCommitSent.
Proof.
  split; [reflexivity|]. split; [reflexivity|]. split; [vm_compute; reflexivity|].
  split; [vm_compute; discriminate|]. split; [vm_compute; reflexivity|].
  split; vm_compute; reflexivity.
Qed.

(** The same announce message on a node that is changing view and on one
    that is not. *)
Lemma onAnnounce_prepare_unless_view_changing_witness :
  (exists w1, @onAnnounce env nodeViewChanging threeSigners = Returned AnnounceViewChanging w1
              /\ sent w1 = [] /\ phase (cons w1) = FBFTAnnounce
              /\ blockHash (cons w1) = repeat xaa 32)
  /\ (exists w', @onAnnounce env node threeSigners = Returned AnnouncePrepared w'
                 /\ phase (cons w') = FBFTPrepare
                 /\ sent w' = [[x11; x0a]; [x11; x0c]]).
Proof.
  split.
  - destruct (proj1 (@onAnnounce_prepare_unless_view_changing env nodeViewChanging
                       threeSigners _ eq_refl eq_refl) eq_refl)
      as (H1 & _ & H3 & H4 & H5).
    eexists; split; [exact H1|]. split; [exact H4|]. split; [exact H5|exact H3].
  - destruct (proj2 (@onAnnounce_prepare_unless_view_changing env node
                       threeSigners _ eq_refl eq_refl))
      as (w' & H1 & _ & H3 & _ & _ & H6).
    + vm_compute; discriminate.
    + reflexivity.
    + exists w'; split; [exact H1|]. split; [exact H3|].
      rewrite H6; [reflexivity|vm_compute; discriminate|reflexivity].
Defined.

(** A one-byte message does not parse; the parser hands back nil. *)
Lemma onAnnounce_unparseable_nil_dereference_witness :
  @onAnnounce env node unparseable = Panicked.
Proof.
  exact (@onAnnounce_unparseable_nil_dereference env node unparseable
           "message too short"%string eq_refl).
Defined.


(** Four signers are persisted; a message with three then leaves
    [commitBitmap] pointing at a mask with the four persisted bits. *)
Lemma onCommitted_commitBitmap_holds_persisted_bits_witness :
  let w := snd (@onCommitted env node fourSigners) in
  let w' := snd (@onCommitted env w threeSigners) in
  commitBitmap (cons w') = Some 1
  /\ Bitmap (deref w' 1) = [x0f].
Proof.
  refine (proj2 (proj2 (proj2 (proj2
    (@onCommitted_commitBitmap_holds_persisted_bits env
       (snd (@onCommitted env node fourSigners)) threeSigners
       _ _ _ _ _ _ eq_refl eq_refl eq_refl)))) _ _).
  - vm_compute; reflexivity.
  - vm_compute; reflexivity.
Defined.

(** A node at block 0 drops the committed message for block 5. *)
Lemma onCommitted_gate_wraps_at_zero_witness :
  uint64_sub (blockNum (cons nodeAtZero)) 1 = 18446744073709551615%Z
  /\ @onCommitted env nodeAtZero threeSigners = (CommittedWrongBlockNum, nodeAtZero).
Proof.
  refine (@onCommitted_gate_wraps_at_zero env nodeAtZero threeSigners _ eq_refl eq_refl _).
  vm_compute; reflexivity.
Defined.

(** Nothing stored: the payload is written.  A longer blob with nine
    signers stored: the three-signer payload replaces it all the same. *)
Lemma onCommitted_writes_without_comparison_witness :
  ReadCommitSig (cons (snd (@onCommitted env node threeSigners))) 5 = Some (sig ++ [x07])
  /\ ReadCommitSig (cons nodeLongerStored) 5 = Some (sig ++ [xff; x01])
  /\ ReadCommitSig (cons (snd (@onCommitted env nodeLongerStored threeSigners))) 5
     = Some (sig ++ [x07]).
Proof.
  split; [|split; [reflexivity|]].
  - refine (proj2 (proj2 (proj2
      (@onCommitted_writes_without_comparison env node threeSigners
         _ _ _ _ _ eq_refl _))) _).
    + intros old Hold; vm_compute in Hold; discriminate.
    + apply catchup_keeps_commit_sigs.
  - refine (proj2 (proj2 (proj2
      (@onCommitted_writes_without_comparison env nodeLongerStored threeSigners
         _ _ _ _ _ eq_refl _))) _).
    + intros old Hold; vm_compute in Hold.
      injection Hold as <-. vm_compute; discriminate.
    + apply catchup_keeps_commit_sigs.
Defined.

End Examples.

(** * Further properties of the handlers and their helpers *)

Section Sending.
Context {E : External}.

(** X1: a node in Listening mode transmits nothing: whatever messages it is
    given, the broadcaster returns the state as it was, with a nil error. *)
Theorem broadcast_listening_sends_nothing (w : World) (p2pMsgs : list NetworkMessage) :
  current (cons w) = Listening ->
  broadcastConsensusP2pMessages w p2pMsgs = (w, None).
Proof.
  intros Hmode; induction p2pMsgs as [|m rest IH]; cbn [broadcastConsensusP2pMessages].
  - reflexivity.
  - rewrite Hmode; cbn [Mode_eqb negb]; exact IH.
Qed.

(** X2: outside Listening mode the broadcaster sends the messages in order
    and stops at the first one the transport refuses: what it has sent is a
    prefix of the batch; with a nil error the prefix is the whole batch, and
    with an error the message right after the prefix is the refused one and
    nothing behind it was tried. *)
Theorem broadcast_stops_at_first_failure (w : World) (p2pMsgs : list NetworkMessage) :
  current (cons w) <> Listening ->
  let wire := fun m => p2p_ConstructMessage (Bytes m) in
  let w' := fst (broadcastConsensusP2pMessages w p2pMsgs) in
  exists k,
    sent w' = sent w ++ map wire (take k p2pMsgs)
    /\ match snd (broadcastConsensusP2pMessages w p2pMsgs) with
       | None => k = length p2pMsgs
       | Some err =>
           exists m, p2pMsgs !! k = Some m
                     /\ SendWithoutRetry (sent w') (wire m) = Some err
       end.
Proof.
  intros Hmode wire; revert w Hmode.
  induction p2pMsgs as [|m rest IH]; intros w Hmode; cbn [broadcastConsensusP2pMessages].
  - exists 0; cbn; rewrite app_nil_r; auto.
  - replace (negb (Mode_eqb (current (cons w)) Listening)) with true
      by (destruct (current (cons w)); cbn; congruence).
    fold (wire m).
    destruct (SendWithoutRetry (sent w) (wire m)) as [err|] eqn:Hsend.
    + exists 0; cbn. rewrite app_nil_r. split; [reflexivity|].
      exists m; split; [reflexivity|exact Hsend].
    + destruct (IH (pushSent (wire m) w) Hmode) as (k & Hsent & Herr).
      exists (S k). cbn [take map]. split.
      * rewrite Hsent; cbn [sent pushSent]. rewrite <- app_assoc; reflexivity.
      * destruct (snd (broadcastConsensusP2pMessages (pushSent (wire m) w) rest));
          [exact Herr|cbn; lia].
Qed.

(** X3: broadcasting a batch followed by another is broadcasting the first
    and, if that raised no error, the second from where the first ended;
    an error in the first batch is the result and the second is not tried. *)
Theorem broadcast_app (w : World) (first second : list NetworkMessage) :
  broadcastConsensusP2pMessages w (first ++ second)
  = match broadcastConsensusP2pMessages w first with
    | (w', None) => broadcastConsensusP2pMessages w' second
    | (w', Some err) => (w', Some err)
    end.
Proof.
  revert w; induction first as [|m rest IH]; intros w; cbn [app broadcastConsensusP2pMessages].
  - reflexivity.
  - destruct (negb (Mode_eqb (current (cons w)) Listening)); [|apply IH].
    destruct (SendWithoutRetry (sent w) (p2p_ConstructMessage (Bytes m))); [reflexivity|].
    apply IH.
Qed.

(** X4: the keys [getPriKeysInCommittee] returns are the node's keys whose
    public key is in the committee, in the order the node holds them: no
    other key is returned and none of those is left out. *)
Theorem getPriKeysInCommittee_filter (c : Consensus) :
  getPriKeysInCommittee c
  = List.filter (fun key => IsValidatorInCommittee c (Pub key)) (priKey c)
  /\ (forall key, In key (getPriKeysInCommittee c)
                  <-> In key (priKey c) /\ IsValidatorInCommittee c (Pub key) = true)
  /\ length (getPriKeysInCommittee c) <= length (priKey c).
Proof.
  assert (Hf : forall keys, keysInCommittee c keys
                 = List.filter (fun key => IsValidatorInCommittee c (Pub key)) keys).
  { induction keys as [|key rest IH]; cbn; [reflexivity|].
    destruct (IsValidatorInCommittee c (Pub key)); cbn; rewrite IH; reflexivity. }
  unfold getPriKeysInCommittee; rewrite Hf.
  split; [reflexivity|]. split.
  - intros key; apply filter_In.
  - apply List.filter_length_le.
Qed.

(** Whatever the mode and the transport, what the broadcaster has sent is
    a prefix of the batch. *)
Lemma broadcast_sent_prefix (p2pMsgs : list NetworkMessage) (w : World) :
  exists k,
    sent (fst (broadcastConsensusP2pMessages w p2pMsgs))
    = sent w ++ map (fun m => p2p_ConstructMessage (Bytes m)) (take k p2pMsgs)
    /\ (current (cons w) = Listening -> k = 0).
Proof.
  revert w; induction p2pMsgs as [|m rest IH]; intros w; cbn [broadcastConsensusP2pMessages].
  - exists 0; cbn; rewrite app_nil_r; auto.
  - destruct (Mode_eqb (current (cons w)) Listening) eqn:Hmode; cbn [negb].
    + assert (Hl : current (cons w) = Listening)
        by (destruct (current (cons w)); cbn in Hmode; congruence).
      destruct (IH w) as (k & Hk & Hzero). rewrite (Hzero Hl) in Hk.
      exists 0; split; [exact Hk|reflexivity].
    + destruct (SendWithoutRetry (sent w) (p2p_ConstructMessage (Bytes m))).
      * exists 0; cbn; rewrite app_nil_r; split; [reflexivity|].
        intros Hl; reflexivity.
      * destruct (IH (pushSent (p2p_ConstructMessage (Bytes m)) w)) as (k & Hk & _).
        exists (S k); split.
        -- rewrite Hk; cbn [sent pushSent take map]. rewrite <- app_assoc; reflexivity.
        -- intros Hl; rewrite Hl in Hmode; discriminate.
Qed.

(** X5: [prepare] moves the phase to Prepare whatever happens to the
    messages: no key in the committee, a failed construction or a refused
    send only shorten what is sent.  Nothing else of the consensus object
    and no mask changes, and what is sent is a prefix of the PREPARE
    messages built for the committee keys. *)
Theorem prepare_only_sets_phase (w : World) :
  let p2pMsgs := constructP2pMessages (cons w) PREPARE [] (getPriKeysInCommittee (cons w)) in
  cons (prepare w) = set_phase FBFTPrepare (cons w)
  /\ heap (prepare w) = heap w
  /\ exists k, sent (prepare w)
               = sent w ++ map (fun m => p2p_ConstructMessage (Bytes m)) (take k p2pMsgs).
Proof.
  intros p2pMsgs. unfold prepare, switchPhase. fold p2pMsgs. cbn [cons heap sent updC].
  destruct (broadcast_cons_heap p2pMsgs w) as [Hc Hh]. rewrite Hc, Hh.
  split; [reflexivity|]. split; [reflexivity|].
  destruct (broadcast_sent_prefix p2pMsgs w) as (k & Hk & _).
  exists k; exact Hk.
Qed.

End Sending.

Section Prepared.
Context {E : External}.

Lemma ReadSignatureBitmapPayload_split (w : World) (payload : bytes) :
  ReadSignatureBitmapPayload w payload 0 = (None, w)
  \/ exists aggSig,
       ReadSignatureBitmapPayload w payload 0
       = (Some (aggSig, length (heap w)),
          mkWorld (cons w) (heap w ++ [mkMask (drop BLSSignatureSizeInBytes payload)]) (sent w))
       /\ BLSSignatureSizeInBytes <= length payload
       /\ DeserializeSign (take BLSSignatureSizeInBytes payload) = Some aggSig.
Proof.
  unfold ReadSignatureBitmapPayload.
  destruct (length payload <? 0 + BLSSignatureSizeInBytes) eqn:Hlen; [left; reflexivity|].
  apply Nat.ltb_ge in Hlen. rewrite drop_0.
  destruct (DeserializeSign (take BLSSignatureSizeInBytes payload)) as [aggSig|] eqn:Hd;
    [|left; reflexivity].
  right; exists aggSig; split; [reflexivity|]. split; [exact Hlen|reflexivity].
Qed.

(** The ways through [onPrepared] for a message that parses and is not
    behind the node: it is dropped before anything is recorded, or its block
    has passed every check and is recorded, and then it is dropped on the
    view or block number, or answered with COMMIT. *)
Lemma onPrepared_paths (w : World) (msg : RawMessage) (recvMsg : FBFTMessage) :
  ParseFBFTMessage msg = ParseOk recvMsg ->
  (blockNum (cons w) <= BlockNum recvMsg)%Z ->
  let w0 := if (BlockNum recvMsg >? blockNum (cons w))%Z then spinUpStateSync w else w in
  let e := fst (onPrepared w msg) in
  let w' := snd (onPrepared w msg) in
  let fresh := mkMask (drop BLSSignatureSizeInBytes (Payload recvMsg)) in
  (cons w' = cons w0 /\ sent w' = sent w0
   /\ (heap w' = heap w0 \/ heap w' = heap w0 ++ [fresh])
   /\ e <> PreparedViewIDFailed /\ e <> PreparedFutureBlock /\ e <> PreparedCommitSent)
  \/ exists aggSig blockObj verify,
       DeserializeSign (take BLSSignatureSizeInBytes (Payload recvMsg)) = Some aggSig
       /\ IsQuorumAchievedByMask fresh = true
       /\ VerifyHash aggSig (AggregatePublic fresh) (BlockHash recvMsg) = true
       /\ rlp_DecodeBytes (Block recvMsg) = Some blockObj
       /\ onPreparedSanityChecks (cons w0) blockObj recvMsg = true
       /\ current (cons w0) = Normal
       /\ BlockVerifier (cons w0) = Some verify
       /\ verify blockObj = None
       /\ heap w' = heap w0 ++ [fresh]
       /\ let c1 := recordPrepared recvMsg blockObj (cons w0) in
          let c2 := set_prepareBitmap (Some (length (heap w0)))
                      (set_aggregatedPrepareSig (Some aggSig) c1) in
          let c3 := if bytes_Equal (blockHash c2) emptyHash
                    then set_blockHash (BlockHash recvMsg) c2 else c2 in
          ((e = PreparedViewIDFailed \/ e = PreparedFutureBlock)
           /\ cons w' = c1 /\ sent w' = sent w0)
          \/ (e = PreparedCommitSent
              /\ checkViewID c1 (stripBlock recvMsg) = None
              /\ BlockNum recvMsg = blockNum (cons w)
              /\ w0 = w
              /\ cons w' = set_phase FBFTCommit c3
              /\ sent w' = sent (sendCommitMessages
                                   (mkWorld c3 (heap w0 ++ [fresh]) (sent w0)) blockObj)).
Proof.
  intros Hparse Hfresh w0 e w' fresh.
  assert (Hnum : blockNum (cons w0) = blockNum (cons w)).
  { subst w0; destruct (BlockNum recvMsg >? blockNum (cons w))%Z; [|reflexivity].
    pose proof (spinUpStateSync_frame w) as F; cbn zeta in F; tauto. }
  assert (Hw0 : (BlockNum recvMsg >? blockNum (cons w))%Z = false -> w0 = w).
  { intros H; subst w0; rewrite H; reflexivity. }
  subst e w'; unfold onPrepared; rewrite Hparse.
  replace (BlockNum recvMsg <? blockNum (cons w))%Z with false
    by (symmetry; apply Z.ltb_ge; lia).
  fold w0. clearbody w0.
  destruct (ReadSignatureBitmapPayload_split w0 (Payload recvMsg))
    as [Hr|(aggSig & Hr & _ & Hsig)]; rewrite Hr.
  { left; cbn; repeat split; auto; discriminate. }
  rewrite deref_fresh. fold fresh.
  set (w1 := mkWorld (cons w0) (heap w0 ++ [fresh]) (sent w0)).
  destruct (IsQuorumAchievedByMask fresh) eqn:Hq; cbn [negb];
    [|left; cbn; repeat split; auto; discriminate].
  destruct (VerifyHash aggSig (AggregatePublic fresh) (BlockHash recvMsg)) eqn:Hv; cbn [negb];
    [|left; cbn; repeat split; auto; discriminate].
  destruct (rlp_DecodeBytes (Block recvMsg)) as [blockObj|] eqn:Hb;
    [|left; cbn; repeat split; auto; discriminate].
  change (cons w1) with (cons w0).
  destruct (onPreparedSanityChecks (cons w0) blockObj recvMsg) eqn:Hs; cbn [negb];
    [|left; cbn; repeat split; auto; discriminate].
  destruct (Mode_eqb (current (cons w0)) Normal) eqn:Hm; cbn [negb];
    [|left; cbn; repeat split; auto; discriminate].
  assert (Hmode : current (cons w0) = Normal)
    by (destruct (current (cons w0)); cbn in Hm; congruence).
  destruct (BlockVerifier (cons w0)) as [verify|] eqn:Hbv;
    [|left; cbn; repeat split; auto; discriminate].
  destruct (verify blockObj) as [err|] eqn:Hver;
    [left; cbn; repeat split; auto; discriminate|].
  right; exists aggSig, blockObj, verify.
  repeat (split; [first [reflexivity|assumption]|]).
  cbv zeta. fold (stripBlock recvMsg).
  change (cons (updC _ (updC (set_block (Block recvMsg)) (updC _ (updC _ w1)))))
    with (recordPrepared recvMsg blockObj (cons w0)).
  set (c1 := recordPrepared recvMsg blockObj (cons w0)).
  destruct (checkViewID c1 (stripBlock recvMsg)) as [err|] eqn:Hview.
  { cbn [fst snd heap]. split; [reflexivity|]. left.
    split; [left; reflexivity|]. split; reflexivity. }
  change (BlockNum (stripBlock recvMsg)) with (BlockNum recvMsg).
  change (blockNum c1) with (blockNum (cons w0)). rewrite Hnum.
  destruct (BlockNum recvMsg >? blockNum (cons w))%Z eqn:Hgt.
  { cbn [fst snd heap]. split; [reflexivity|]. left.
    split; [right; reflexivity|]. split; reflexivity. }
  assert (Heq : BlockNum recvMsg = blockNum (cons w)).
  { rewrite Z.gtb_ltb in Hgt. apply Z.ltb_ge in Hgt. lia. }
  cbn [fst snd]. unfold switchPhase.
  match goal with
  | |- context [sendCommitMessages ?x blockObj] => set (w5 := x)
  end.
  set (c2 := set_prepareBitmap (Some (length (heap w0)))
               (set_aggregatedPrepareSig (Some aggSig) c1)).
  assert (H5 : w5 = mkWorld (if bytes_Equal (blockHash c2) emptyHash
                             then set_blockHash (BlockHash recvMsg) c2 else c2)
                      (heap w0 ++ [fresh]) (sent w0)).
  { subst w5.
    repeat match goal with
           | |- context [bytes_Equal ?a emptyHash] =>
               progress change a with (blockHash (cons w0))
           end.
    destruct (bytes_Equal (blockHash (cons w0)) emptyHash); reflexivity. }
  clearbody w5. subst w5.
  match goal with
  | |- context [sendCommitMessages ?x blockObj] =>
      pose proof (sendCommitMessages_cons_heap x blockObj) as [Hc Hh]
  end.
  cbn [heap cons sent updC]. rewrite Hc, Hh. cbn [heap cons].
  split; [reflexivity|]. right.
  split; [reflexivity|]. split; [reflexivity|]. split; [exact Heq|].
  split; [apply Hw0; reflexivity|]. split; reflexivity.
Qed.

Lemma onPrepared_stale (w : World) (msg : RawMessage) (recvMsg : FBFTMessage) :
  ParseFBFTMessage msg = ParseOk recvMsg ->
  (BlockNum recvMsg < blockNum (cons w))%Z ->
  onPrepared w msg = (PreparedWrongBlockNum, w).
Proof.
  intros Hparse Hlt; unfold onPrepared; rewrite Hparse.
  replace (BlockNum recvMsg <? blockNum (cons w))%Z with true
    by (symmetry; apply Z.ltb_lt; exact Hlt).
  reflexivity.
Qed.

(** The gate state differs from the node's only in channel, mode, timers. *)
Lemma gate_frame (w : World) (b : bool) :
  let w0 := if b then spinUpStateSync w else w in
  blockNum (cons w0) = blockNum (cons w)
  /\ blockHash (cons w0) = blockHash (cons w)
  /\ block (cons w0) = block (cons w)
  /\ phase (cons w0) = phase (cons w)
  /\ aggregatedPrepareSig (cons w0) = aggregatedPrepareSig (cons w)
  /\ prepareBitmap (cons w0) = prepareBitmap (cons w)
  /\ aggregatedCommitSig (cons w0) = aggregatedCommitSig (cons w)
  /\ commitBitmap (cons w0) = commitBitmap (cons w)
  /\ FBFTLog (cons w0) = FBFTLog (cons w)
  /\ Blockchain (cons w0) = Blockchain (cons w)
  /\ heap w0 = heap w
  /\ sent w0 = sent w.
Proof.
  destruct b; [apply spinUpStateSync_frame|cbn; repeat split; reflexivity].
Qed.

(** X6: [onPrepared] answers with COMMIT only for a message that parses, is
    for exactly the node's block number, on a node in Normal mode with a
    block verifier, whose payload holds a signature that deserializes, whose
    bitmap reaches quorum, whose aggregate signature verifies over the
    message's block hash, whose block decodes, passes the sanity checks and
    the verifier, and whose view passes the view-ID check.  In particular a
    message ahead of the node is never answered. *)
Theorem onPrepared_commit_requires (w : World) (msg : RawMessage) :
  fst (onPrepared w msg) = PreparedCommitSent ->
  exists recvMsg aggSig blockObj verify,
    ParseFBFTMessage msg = ParseOk recvMsg
    /\ BlockNum recvMsg = blockNum (cons w)
    /\ current (cons w) = Normal
    /\ DeserializeSign (take BLSSignatureSizeInBytes (Payload recvMsg)) = Some aggSig
    /\ IsQuorumAchievedByMask (mkMask (drop BLSSignatureSizeInBytes (Payload recvMsg))) = true
    /\ VerifyHash aggSig
         (AggregatePublic (mkMask (drop BLSSignatureSizeInBytes (Payload recvMsg))))
         (BlockHash recvMsg) = true
    /\ rlp_DecodeBytes (Block recvMsg) = Some blockObj
    /\ onPreparedSanityChecks (cons w) blockObj recvMsg = true
    /\ BlockVerifier (cons w) = Some verify
    /\ verify blockObj = None
    /\ checkViewID (recordPrepared recvMsg blockObj (cons w)) (stripBlock recvMsg) = None.
Proof.
  intros Hexit.
  destruct (ParseFBFTMessage msg) as [recvMsg|partial err] eqn:Hparse.
  2: { rewrite (onPrepared_unparseable w msg partial err Hparse) in Hexit; discriminate. }
  destruct (Z_lt_ge_dec (BlockNum recvMsg) (blockNum (cons w))) as [Hlt|Hge].
  { rewrite (onPrepared_stale w msg recvMsg Hparse Hlt) in Hexit; discriminate. }
  destruct (onPrepared_paths w msg recvMsg Hparse ltac:(lia))
    as [(_ & _ & _ & _ & _ & Hne)|(aggSig & blockObj & verify & H1 & H2 & H3 & H4 & H5
                                    & H6 & H7 & H8 & _ & Hend)].
  { exfalso; exact (Hne Hexit). }
  cbv zeta in Hend.
  destruct Hend as [([He|He] & _)|(_ & Hview & Hnum & Hw0 & _)];
    [rewrite Hexit in He; discriminate|rewrite Hexit in He; discriminate|].
  rewrite Hw0 in *.
  exists recvMsg, aggSig, blockObj, verify.
  repeat (split; [first [reflexivity|assumption]|]). exact Hview.
Qed.

(** X7: unless [onPrepared] reaches the end and answers with COMMIT, it
    sends nothing and leaves the phase, the aggregated prepare signature and
    the prepare bitmap as they were. *)
Theorem onPrepared_quiet_unless_commit (w : World) (msg : RawMessage) :
  fst (onPrepared w msg) <> PreparedCommitSent ->
  let w' := snd (onPrepared w msg) in
  sent w' = sent w
  /\ phase (cons w') = phase (cons w)
  /\ aggregatedPrepareSig (cons w') = aggregatedPrepareSig (cons w)
  /\ prepareBitmap (cons w') = prepareBitmap (cons w).
Proof.
  intros Hexit w'; subst w'.
  destruct (ParseFBFTMessage msg) as [recvMsg|partial err] eqn:Hparse.
  2: { rewrite (onPrepared_unparseable w msg partial err Hparse); cbn; auto. }
  destruct (Z_lt_ge_dec (BlockNum recvMsg) (blockNum (cons w))) as [Hlt|Hge].
  { rewrite (onPrepared_stale w msg recvMsg Hparse Hlt); cbn; auto. }
  pose proof (gate_frame w (BlockNum recvMsg >? blockNum (cons w))%Z) as F.
  cbv zeta in F. destruct F as (_ & _ & _ & Fp & Fs & Fb & _ & _ & _ & _ & _ & Fsent).
  destruct (onPrepared_paths w msg recvMsg Hparse ltac:(lia))
    as [(Hc & Hs & _)|(aggSig & blockObj & verify & _ & _ & _ & _ & _ & _ & _ & _ & _ & Hend)].
  { rewrite Hc, Hs. auto. }
  cbv zeta in Hend.
  destruct Hend as [(_ & Hc & Hs)|(He & _)]; [|exfalso; exact (Hexit He)].
  rewrite Hc, Hs. unfold recordPrepared; cbn. auto.
Qed.

(** X8: what [onPrepared] records, it records together, and without the
    block bytes in the log: either the FBFT log and the block field are as
    before, or the block of the message is marked verified and added, the
    message is logged with its block bytes dropped, and the block bytes are
    kept in the block field. *)
Theorem onPrepared_records_block_and_stripped_message (w : World) (msg : RawMessage) :
  let w' := snd (onPrepared w msg) in
  (FBFTLog (cons w') = FBFTLog (cons w) /\ block (cons w') = block (cons w))
  \/ exists recvMsg blockObj,
       ParseFBFTMessage msg = ParseOk recvMsg
       /\ rlp_DecodeBytes (Block recvMsg) = Some blockObj
       /\ messages (FBFTLog (cons w')) = stripBlock recvMsg :: messages (FBFTLog (cons w))
       /\ Block (stripBlock recvMsg) = []
       /\ blocks (FBFTLog (cons w')) = blockObj :: blocks (FBFTLog (cons w))
       /\ verifiedBlocks (FBFTLog (cons w'))
          = Hash blockObj :: verifiedBlocks (FBFTLog (cons w))
       /\ block (cons w') = Block recvMsg.
Proof.
  intros w'; subst w'.
  destruct (ParseFBFTMessage msg) as [recvMsg|partial err] eqn:Hparse.
  2: { rewrite (onPrepared_unparseable w msg partial err Hparse); left; cbn; auto. }
  destruct (Z_lt_ge_dec (BlockNum recvMsg) (blockNum (cons w))) as [Hlt|Hge].
  { rewrite (onPrepared_stale w msg recvMsg Hparse Hlt); left; cbn; auto. }
  pose proof (gate_frame w (BlockNum recvMsg >? blockNum (cons w))%Z) as F.
  cbv zeta in F. destruct F as (_ & _ & Fblock & _ & _ & _ & _ & _ & Flog & _).
  destruct (onPrepared_paths w msg recvMsg Hparse ltac:(lia))
    as [(Hc & _)|(aggSig & blockObj & verify & _ & _ & _ & Hdec & _ & _ & _ & _ & _ & Hend)].
  { left; rewrite Hc; auto. }
  right; exists recvMsg, blockObj. split; [reflexivity|]. split; [exact Hdec|].
  cbv zeta in Hend.
  assert (Hrec : FBFTLog (cons (snd (onPrepared w msg)))
                 = FBFTLog_AddMessage (stripBlock recvMsg)
                     (FBFTLog_AddBlock blockObj
                        (FBFTLog_MarkBlockVerified blockObj (FBFTLog (cons w))))
                 /\ block (cons (snd (onPrepared w msg))) = Block recvMsg).
  { rewrite <- Flog. destruct Hend as [(_ & Hc & _)|(_ & _ & _ & _ & Hc & _)]; rewrite Hc.
    - split; reflexivity.
    - destruct (bytes_Equal _ emptyHash); split; reflexivity. }
  destruct Hrec as [Hlog Hblock]. rewrite Hlog, Hblock. cbn. auto 10.
Qed.

(** X9: [onPrepared] adopts the block hash of the message only when it
    answers with COMMIT and the node's block hash is still all zero; in every
    other case the block hash stays. *)
Theorem onPrepared_blockHash (w : World) (msg : RawMessage) (recvMsg : FBFTMessage) :
  ParseFBFTMessage msg = ParseOk recvMsg ->
  blockHash (cons (snd (onPrepared w msg)))
  = match fst (onPrepared w msg) with
    | PreparedCommitSent =>
        if bytes_Equal (blockHash (cons w)) emptyHash
        then BlockHash recvMsg else blockHash (cons w)
    | _ => blockHash (cons w)
    end.
Proof.
  intros Hparse.
  destruct (Z_lt_ge_dec (BlockNum recvMsg) (blockNum (cons w))) as [Hlt|Hge].
  { rewrite (onPrepared_stale w msg recvMsg Hparse Hlt); reflexivity. }
  pose proof (gate_frame w (BlockNum recvMsg >? blockNum (cons w))%Z) as F.
  cbv zeta in F. destruct F as (_ & Fh & _).
  destruct (onPrepared_paths w msg recvMsg Hparse ltac:(lia))
    as [(Hc & _ & _ & N1 & N2 & N3)
       |(aggSig & blockObj & verify & _ & _ & _ & _ & _ & _ & _ & _ & _ & Hend)].
  { rewrite Hc, Fh. destruct (fst (onPrepared w msg)); congruence. }
  cbv zeta in Hend.
  destruct Hend as [(He & Hc & _)|(He & _ & _ & Hw0 & Hc & _)]; rewrite Hc.
  - change (blockHash (recordPrepared recvMsg blockObj
                         (cons (if (BlockNum recvMsg >? blockNum (cons w))%Z
                                then spinUpStateSync w else w))))
      with (blockHash (cons (if (BlockNum recvMsg >? blockNum (cons w))%Z
                             then spinUpStateSync w else w))).
    rewrite Fh. destruct He as [He|He]; rewrite He; reflexivity.
  - rewrite He, Hw0.
    change (blockHash (set_prepareBitmap (Some (length (heap w)))
                         (set_aggregatedPrepareSig (Some aggSig)
                            (recordPrepared recvMsg blockObj (cons w)))))
      with (blockHash (cons w)).
    destruct (bytes_Equal (blockHash (cons w)) emptyHash); reflexivity.
Qed.

(** X10: [onPrepared] adds at most one mask object and writes to none that
    exists: every mask on the heap before is there unchanged afterwards, and
    if the prepare and commit bitmap fields pointed into the heap before,
    they do afterwards. *)
Theorem onPrepared_heap (w : World) (msg : RawMessage) :
  let w' := snd (onPrepared w msg) in
  (forall p m, heap w !! p = Some m -> heap w' !! p = Some m)
  /\ length (heap w') <= S (length (heap w))
  /\ (maskRefsValid w = true -> maskRefsValid w' = true).
Proof.
  intros w'; subst w'.
  assert (Hsame : forall x : World, cons x = cons w -> heap x = heap w ->
            (forall p m, heap w !! p = Some m -> heap x !! p = Some m)
            /\ length (heap x) <= S (length (heap w))
            /\ (maskRefsValid w = true -> maskRefsValid x = true)).
  { intros x Hc Hh. unfold maskRefsValid. rewrite Hc, Hh. auto. }
  destruct (ParseFBFTMessage msg) as [recvMsg|partial err] eqn:Hparse.
  2: { rewrite (onPrepared_unparseable w msg partial err Hparse); apply Hsame; reflexivity. }
  destruct (Z_lt_ge_dec (BlockNum recvMsg) (blockNum (cons w))) as [Hlt|Hge].
  { rewrite (onPrepared_stale w msg recvMsg Hparse Hlt); apply Hsame; reflexivity. }
  pose proof (gate_frame w (BlockNum recvMsg >? blockNum (cons w))%Z) as F.
  cbv zeta in F.
  destruct F as (_ & _ & _ & _ & _ & Fpb & _ & Fcb & _ & _ & Fheap & _).
  assert (Hgrow : forall x : World,
            heap x = heap w ++ [mkMask (drop BLSSignatureSizeInBytes (Payload recvMsg))] ->
            (forall p m, heap w !! p = Some m -> heap x !! p = Some m)
            /\ length (heap x) <= S (length (heap w))).
  { intros x Hh; rewrite Hh; split.
    - intros p m Hp. rewrite lookup_app_l; [exact Hp|]. eapply lookup_lt_Some; exact Hp.
    - rewrite length_app; cbn; lia. }
  assert (Hvalid : forall (h : list Mask) (r : option MaskRef) (m : Mask),
            maskRefValid h r = true -> maskRefValid (h ++ [m]) r = true).
  { intros h [p|] m; cbn; [|reflexivity]. rewrite length_app; cbn.
    intros H; apply Nat.ltb_lt in H; apply Nat.ltb_lt; lia. }
  destruct (onPrepared_paths w msg recvMsg Hparse ltac:(lia))
    as [(Hc & _ & Hh & _)|(aggSig & blockObj & verify & _ & _ & _ & _ & _ & _ & _ & _
                           & Hh & Hend)].
  - rewrite Fheap in Hh. unfold maskRefsValid. rewrite Hc, Fpb, Fcb.
    destruct Hh as [Hh|Hh].
    + rewrite Hh. repeat split; auto.
    + destruct (Hgrow _ Hh) as [G1 G2]. split; [exact G1|]. split; [exact G2|].
      rewrite Hh. intros Hv; apply andb_true_iff in Hv; destruct Hv as [V1 V2].
      apply andb_true_iff; split; apply Hvalid; assumption.
  - rewrite Fheap in Hh. destruct (Hgrow _ Hh) as [G1 G2].
    split; [exact G1|]. split; [exact G2|].
    unfold maskRefsValid. rewrite Hh. cbv zeta in Hend.
    intros Hv; apply andb_true_iff in Hv; destruct Hv as [V1 V2].
    destruct Hend as [(_ & Hc & _)|(_ & _ & _ & Hw0 & Hc & _)]; rewrite Hc.
    + change (prepareBitmap (recordPrepared recvMsg blockObj
                (cons (if (BlockNum recvMsg >? blockNum (cons w))%Z
                       then spinUpStateSync w else w))))
        with (prepareBitmap (cons (if (BlockNum recvMsg >? blockNum (cons w))%Z
                                   then spinUpStateSync w else w))).
      change (commitBitmap (recordPrepared recvMsg blockObj
                (cons (if (BlockNum recvMsg >? blockNum (cons w))%Z
                       then spinUpStateSync w else w))))
        with (commitBitmap (cons (if (BlockNum recvMsg >? blockNum (cons w))%Z
                                  then spinUpStateSync w else w))).
      rewrite Fpb, Fcb. apply andb_true_iff; split; apply Hvalid; assumption.
    + rewrite Hw0.
      repeat match goal with
             | |- context [if ?b then set_blockHash _ _ else _] => destruct b
             end.
      all: apply andb_true_iff; split; [|apply Hvalid; exact V2].
      all: cbn; rewrite length_app; cbn; apply Nat.ltb_lt; lia.
Qed.

Lemma ReadSignatureBitmapPayload_ok (w : World) (payload : bytes) (aggSig : Sign) :
  BLSSignatureSizeInBytes <= length payload ->
  DeserializeSign (take BLSSignatureSizeInBytes payload) = Some aggSig ->
  ReadSignatureBitmapPayload w payload 0
  = (Some (aggSig, length (heap w)),
     mkWorld (cons w) (heap w ++ [mkMask (drop BLSSignatureSizeInBytes payload)]) (sent w)).
Proof.
  intros Hlen Hsig; unfold ReadSignatureBitmapPayload.
  replace (length payload <? 0 + BLSSignatureSizeInBytes) with false
    by (symmetry; apply Nat.ltb_ge; exact Hlen).
  rewrite drop_0, Hsig. reflexivity.
Qed.

(** X11: a prepared message for exactly the node's block number that passes
    every check, on a node in Normal mode, is answered: the handler reaches
    its end, the phase is Commit, the aggregated prepare signature is the
    message's, the prepare bitmap points at a new mask holding the message's
    bitmap, and what is sent is a prefix of the COMMIT messages built over
    the commit payload of the decoded block for the committee keys. *)
Theorem onPrepared_accepts (w : World) (msg : RawMessage) (recvMsg : FBFTMessage)
  (aggSig : Sign) (blockObj : types_Block) (verify : types_Block -> option Error) :
  let fresh := mkMask (drop BLSSignatureSizeInBytes (Payload recvMsg)) in
  let c1 := recordPrepared recvMsg blockObj (cons w) in
  let c2 := set_prepareBitmap (Some (length (heap w)))
              (set_aggregatedPrepareSig (Some aggSig) c1) in
  let c3 := if bytes_Equal (blockHash c2) emptyHash
            then set_blockHash (BlockHash recvMsg) c2 else c2 in
  let commitPayload := ConstructCommitPayload (Epoch blockObj) (Hash blockObj)
                         (NumberU64 blockObj) (HeaderViewID blockObj) in
  let p2pMsgs := constructP2pMessages c3 COMMIT commitPayload (getPriKeysInCommittee c3) in
  ParseFBFTMessage msg = ParseOk recvMsg ->
  BlockNum recvMsg = blockNum (cons w) ->
  BLSSignatureSizeInBytes <= length (Payload recvMsg) ->
  DeserializeSign (take BLSSignatureSizeInBytes (Payload recvMsg)) = Some aggSig ->
  IsQuorumAchievedByMask fresh = true ->
  VerifyHash aggSig (AggregatePublic fresh) (BlockHash recvMsg) = true ->
  rlp_DecodeBytes (Block recvMsg) = Some blockObj ->
  onPreparedSanityChecks (cons w) blockObj recvMsg = true ->
  current (cons w) = Normal ->
  BlockVerifier (cons w) = Some verify ->
  verify blockObj = None ->
  checkViewID c1 (stripBlock recvMsg) = None ->
  let w' := snd (onPrepared w msg) in
  fst (onPrepared w msg) = PreparedCommitSent
  /\ cons w' = set_phase FBFTCommit c3
  /\ phase (cons w') = FBFTCommit
  /\ aggregatedPrepareSig (cons w') = Some aggSig
  /\ prepareBitmap (cons w') = Some (length (heap w))
  /\ deref w' (length (heap w)) = fresh
  /\ exists k, sent w' = sent w ++ map (fun m => p2p_ConstructMessage (Bytes m))
                                      (take k p2pMsgs).
Proof.
  intros fresh c1 c2 c3 commitPayload p2pMsgs
         Hparse Hnum Hlen Hsig Hq Hv Hdec Hsane Hmode Hbv Hver Hview w'.
  assert (Heq : onPrepared w msg
                = (PreparedCommitSent,
                   switchPhase FBFTCommit
                     (sendCommitMessages (mkWorld c3 (heap w ++ [fresh]) (sent w)) blockObj))).
  { assert (Hlt : (BlockNum recvMsg <? blockNum (cons w))%Z = false)
      by (rewrite Hnum; apply Z.ltb_irrefl).
    assert (Hgt : (BlockNum recvMsg >? blockNum (cons w))%Z = false)
      by (rewrite Hnum, Z.gtb_ltb; apply Z.ltb_irrefl).
    unfold onPrepared; rewrite Hparse, Hlt, Hgt.
    rewrite (ReadSignatureBitmapPayload_ok w (Payload recvMsg) aggSig Hlen Hsig).
    rewrite deref_fresh. fold fresh. rewrite Hq, Hv; cbn [negb]. rewrite Hdec.
    set (w1 := mkWorld (cons w) (heap w ++ [fresh]) (sent w)).
    change (cons w1) with (cons w). rewrite Hsane, Hmode, Hbv, Hver; cbn [negb Mode_eqb].
    cbv zeta. fold (stripBlock recvMsg).
    change (cons (updC _ (updC (set_block (Block recvMsg)) (updC _ (updC _ w1)))))
      with c1.
    rewrite Hview.
    change (BlockNum (stripBlock recvMsg)) with (BlockNum recvMsg).
    change (blockNum c1) with (blockNum (cons w)). rewrite Hgt.
    f_equal. f_equal. f_equal.
    subst c3 c2.
    repeat match goal with
           | |- context [bytes_Equal ?a emptyHash] =>
               progress change a with (blockHash (cons w))
           end.
    destruct (bytes_Equal (blockHash (cons w)) emptyHash); reflexivity. }
  subst w'; rewrite Heq; cbn [fst snd]. unfold switchPhase.
  destruct (sendCommitMessages_cons_heap (mkWorld c3 (heap w ++ [fresh]) (sent w)) blockObj)
    as [Hc Hh].
  assert (Hfields : aggregatedPrepareSig c3 = Some aggSig
                    /\ prepareBitmap c3 = Some (length (heap w))).
  { subst c3; destruct (bytes_Equal (blockHash c2) emptyHash); split; reflexivity. }
  destruct Hfields as [Hf1 Hf2].
  split; [reflexivity|].
  split; [cbn [cons updC]; rewrite Hc; reflexivity|].
  split; [reflexivity|].
  split; [cbn [cons updC]; rewrite Hc; exact Hf1|].
  split; [cbn [cons updC]; rewrite Hc; exact Hf2|].
  split.
  - unfold deref; cbn [heap updC]. rewrite Hh; cbn [heap].
    rewrite (list_lookup_middle (heap w) [] fresh (length (heap w)) eq_refl). reflexivity.
  - unfold sendCommitMessages; cbn [sent updC cons].
    destruct (broadcast_sent_prefix
                (constructP2pMessages c3 COMMIT commitPayload (getPriKeysInCommittee c3))
                (mkWorld c3 (heap w ++ [fresh]) (sent w))) as (k & Hk & _).
    exists k. exact Hk.
Qed.

End Prepared.

Ltac announce_fields :=
  repeat match goal with |- _ /\ _ => split end;
  intros; first [reflexivity | congruence | split; reflexivity].

Section Announce.
Context {E : External}.

(** X12: an announce message that parses never makes [onAnnounce] die, and
    the handler keeps its hands off the block number, the mode, the sync
    channel, the timers, the stored commit signatures, the signatures and
    bitmaps of both phases, the block field and the heap.  A failed sanity
    check changes nothing at all; past it the message is logged and its
    hash is the node's block hash whatever follows; and only the return
    after [prepare] has sent anything or changed the phase. *)
Theorem onAnnounce_frame (w : World) (msg : RawMessage) (recvMsg : FBFTMessage) :
  ParseFBFTMessage msg = ParseOk recvMsg ->
  exists l w',
    onAnnounce w msg = Returned l w'
    /\ blockNum (cons w') = blockNum (cons w)
    /\ current (cons w') = current (cons w)
    /\ BlockNumLowChan (cons w') = BlockNumLowChan (cons w)
    /\ consensusTimeout (cons w') = consensusTimeout (cons w)
    /\ Blockchain (cons w') = Blockchain (cons w)
    /\ aggregatedPrepareSig (cons w') = aggregatedPrepareSig (cons w)
    /\ prepareBitmap (cons w') = prepareBitmap (cons w)
    /\ aggregatedCommitSig (cons w') = aggregatedCommitSig (cons w)
    /\ commitBitmap (cons w') = commitBitmap (cons w)
    /\ block (cons w') = block (cons w)
    /\ heap w' = heap w
    /\ (l = AnnounceSanityFailed -> w' = w)
    /\ (l <> AnnounceSanityFailed ->
        blockHash (cons w') = BlockHash recvMsg
        /\ messages (FBFTLog (cons w')) = recvMsg :: messages (FBFTLog (cons w)))
    /\ (l <> AnnouncePrepared -> sent w' = sent w /\ phase (cons w') = phase (cons w)).
Proof.
  intros Hparse. unfold onAnnounce; rewrite Hparse.
  destruct (onAnnounceSanityChecks (cons w) recvMsg); cbn [negb].
  2: { exists AnnounceSanityFailed, w. split; [reflexivity|]. announce_fields. }
  set (w1 := updC (set_blockHash (BlockHash recvMsg)) _).
  destruct (IsViewChangingMode (cons w1)).
  { exists AnnounceViewChanging, w1. split; [reflexivity|]. announce_fields. }
  destruct (checkViewID (cons w1) recvMsg).
  { exists AnnounceViewIDFailed, w1. split; [reflexivity|]. announce_fields. }
  exists AnnouncePrepared, (prepare (StartFinalityCount w1)). split; [reflexivity|].
  unfold prepare, switchPhase. cbn [cons heap updC].
  match goal with
  | |- context [broadcastConsensusP2pMessages ?x ?ms] =>
      destruct (broadcast_cons_heap ms x) as [Hc Hh]
  end.
  rewrite Hc, Hh. announce_fields.
Qed.

End Announce.

Section Committed.
Context {E : External}.

Lemma Timeout_set_off (k : TimeoutType) (ts : Timeouts) :
  Timeout_IsActive k (Timeout_set k false ts) = false.
Proof.
  unfold Timeout_IsActive, Timeout_set.
  induction ts as [|e ts IH]; cbn; [reflexivity|].
  destruct (TimeoutType_eqb (fst e) k) eqn:He; cbn; rewrite He; [reflexivity|exact IH].
Qed.

Lemma Timeout_set_on (k : TimeoutType) (ts : Timeouts) :
  Timeout_IsActive k (Timeout_set k true ts) = Timeout_has k ts.
Proof.
  unfold Timeout_IsActive, Timeout_set, Timeout_has.
  induction ts as [|e ts IH]; cbn; [reflexivity|].
  destruct (TimeoutType_eqb (fst e) k) eqn:He; cbn; rewrite He; [reflexivity|exact IH].
Qed.

Lemma Timeout_set_other (k k' : TimeoutType) (on : bool) (ts : Timeouts) :
  k <> k' -> Timeout_IsActive k' (Timeout_set k on ts) = Timeout_IsActive k' ts.
Proof.
  intros Hne; unfold Timeout_IsActive, Timeout_set.
  induction ts as [|e ts IH]; cbn; [reflexivity|].
  destruct (TimeoutType_eqb (fst e) k) eqn:He; cbn.
  - assert (Hk : fst e = k) by (destruct (fst e), k; cbn in He; congruence).
    replace (TimeoutType_eqb (fst e) k') with false
      by (rewrite Hk; destruct k, k'; cbn; congruence).
    exact IH.
  - destruct (TimeoutType_eqb (fst e) k'); [reflexivity|exact IH].
Qed.

Lemma Timeout_has_set (k k' : TimeoutType) (on : bool) (ts : Timeouts) :
  Timeout_has k' (Timeout_set k on ts) = Timeout_has k' ts.
Proof.
  unfold Timeout_has, Timeout_set.
  induction ts as [|e ts IH]; cbn; [reflexivity|].
  rewrite IH. destruct (TimeoutType_eqb (fst e) k); reflexivity.
Qed.

(** X13: the end of [onCommitted], after catch-up, on a node whose timer map
    holds the bootstrap and the consensus timer.  The timers are touched
    only when the message is not ahead of the node and the node is not
    changing view; otherwise the state is returned as it is.  When they are
    touched, the bootstrap timer is off afterwards and the consensus timer
    is on; nothing but the timers changes. *)
Theorem onCommittedFinish_timers (w : World) (recvMsg : FBFTMessage) :
  Timeout_has timeoutBootstrap (consensusTimeout (cons w)) = true ->
  Timeout_has timeoutConsensus (consensusTimeout (cons w)) = true ->
  let e := fst (onCommittedFinish w recvMsg) in
  let w' := snd (onCommittedFinish w recvMsg) in
  (e = CommittedTimerStarted
   <-> (BlockNum recvMsg <= blockNum (cons w))%Z /\ current (cons w) <> ViewChanging)
  /\ (e <> CommittedTimerStarted -> w' = w)
  /\ (e = CommittedTimerStarted ->
      Timeout_IsActive timeoutBootstrap (consensusTimeout (cons w')) = false
      /\ Timeout_IsActive timeoutConsensus (consensusTimeout (cons w')) = true)
  /\ Timeout_has timeoutBootstrap (consensusTimeout (cons w')) = true
  /\ Timeout_has timeoutConsensus (consensusTimeout (cons w')) = true
  /\ cons w' = set_consensusTimeout (consensusTimeout (cons w')) (cons w)
  /\ heap w' = heap w
  /\ sent w' = sent w.
Proof.
  intros Hboot Hcons e w'; subst e w'; unfold onCommittedFinish, IsViewChangingMode.
  destruct (BlockNum recvMsg >? blockNum (cons w))%Z eqn:Hgt.
  { rewrite Z.gtb_ltb in Hgt; apply Z.ltb_lt in Hgt. cbn [fst snd].
    split; [split; [discriminate|intros [H _]; lia]|].
    split; [reflexivity|]. split; [discriminate|].
    split; [exact Hboot|]. split; [exact Hcons|]. repeat split; reflexivity. }
  rewrite Z.gtb_ltb in Hgt; apply Z.ltb_ge in Hgt.
  destruct (Mode_eqb (current (cons w)) ViewChanging) eqn:Hvc.
  { assert (Hmode : current (cons w) = ViewChanging)
      by (destruct (current (cons w)); cbn in Hvc; congruence).
    cbn [fst snd].
    split; [split; [discriminate|intros [_ H]; congruence]|].
    split; [reflexivity|]. split; [discriminate|].
    split; [exact Hboot|]. split; [exact Hcons|]. repeat split; reflexivity. }
  assert (Hmode : current (cons w) <> ViewChanging)
    by (intros H; rewrite H in Hvc; discriminate).
  cbn [fst snd].
  split; [split; [intros _; split; [lia|exact Hmode]|reflexivity]|].
  split; [intros H; congruence|].
  assert (Hafter :
    forall ts' : Timeouts,
      ts' = consensusTimeout (cons w)
      \/ ts' = Timeout_Stop timeoutBootstrap (consensusTimeout (cons w)) ->
      Timeout_IsActive timeoutBootstrap ts' = false ->
      Timeout_IsActive timeoutBootstrap (Timeout_Start timeoutConsensus ts') = false
      /\ Timeout_IsActive timeoutConsensus (Timeout_Start timeoutConsensus ts') = true
      /\ Timeout_has timeoutBootstrap (Timeout_Start timeoutConsensus ts') = true
      /\ Timeout_has timeoutConsensus (Timeout_Start timeoutConsensus ts') = true).
  { intros ts' Hts Hoff. unfold Timeout_Start.
    rewrite Timeout_set_other by discriminate.
    rewrite Timeout_set_on, !Timeout_has_set.
    destruct Hts as [->| ->]; unfold Timeout_Stop; rewrite ?Timeout_has_set; auto. }
  destruct (Timeout_IsActive timeoutBootstrap (consensusTimeout (cons w))) eqn:Hb;
    cbn [cons updC consensusTimeout set_consensusTimeout heap sent].
  - destruct (Hafter (Timeout_Stop timeoutBootstrap (consensusTimeout (cons w))))
      as (A1 & A2 & A3 & A4); [right; reflexivity|apply Timeout_set_off|].
    split; [intros _; split; assumption|].
    split; [exact A3|]. split; [exact A4|]. repeat split; reflexivity.
  - destruct (Hafter (consensusTimeout (cons w)))
      as (A1 & A2 & A3 & A4); [left; reflexivity|exact Hb|].
    split; [intros _; split; assumption|].
    split; [exact A3|]. split; [exact A4|]. repeat split; reflexivity.
Qed.

Lemma onCommittedFinish_tags (w : World) (recvMsg : FBFTMessage) :
  fst (onCommittedFinish w recvMsg) = CommittedOutOfSync
  \/ fst (onCommittedFinish w recvMsg) = CommittedViewChanging
  \/ fst (onCommittedFinish w recvMsg) = CommittedTimerStarted.
Proof. unfold onCommittedFinish; repeat break_match; cbn; auto. Qed.

Lemma onCommittedChecks_rejected (w : World) (msg : RawMessage)
  (e : CommittedExit) (w' : World) :
  onCommittedChecks w msg = inl (e, w') ->
  (exists b : bool, cons w' = cons (if b then spinUpStateSync w else w))
  /\ sent w' = sent w
  /\ (heap w' = heap w \/ exists m, heap w' = heap w ++ [m]).
Proof.
  unfold onCommittedChecks; intros H.
  destruct (ParseFBFTMessage msg) as [r|? ?].
  2: { injection H as <- <-. split; [exists false; reflexivity|auto]. }
  destruct (BlockNum r <? uint64_sub (blockNum (cons w)) 1)%Z.
  { injection H as <- <-. split; [exists false; reflexivity|auto]. }
  pose proof (gate_frame w (BlockNum r >? blockNum (cons w))%Z) as F. cbv zeta in F.
  destruct F as (_ & _ & _ & _ & _ & _ & _ & _ & _ & _ & Fh & Fs).
  remember (if (BlockNum r >? blockNum (cons w))%Z then spinUpStateSync w else w)
    as w0 eqn:Hw0.
  assert (Hb : exists b : bool, cons w0 = cons (if b then spinUpStateSync w else w))
    by (exists (BlockNum r >? blockNum (cons w))%Z; rewrite Hw0; reflexivity).
  clear Hw0.
  destruct (ReadSignatureBitmapPayload_split w0 (Payload r)) as [Hr|(s & Hr & _)];
    rewrite Hr in H.
  { injection H as <- <-. rewrite Fh, Fs. auto. }
  repeat break_match_in H; try discriminate.
  all: injection H as <- <-; cbn [cons heap sent]; rewrite Fh, Fs.
  all: split; [exact Hb|split; [reflexivity|right; eexists; reflexivity]].
Qed.

(** X14: a committed message that [onCommitted] drops at any of its checks
    leaves the stored commit signatures, the commit signature and bitmap
    fields, the FBFT log, the phase, the block hash and the block number as
    they were, sends nothing and changes no mask on the heap. *)
Theorem onCommitted_rejected_frame (w : World) (msg : RawMessage) :
  In (fst (onCommitted w msg))
     [CommittedUnparseable; CommittedWrongBlockNum; CommittedBadPayload;
      CommittedNoQuorum; CommittedNoBlock; CommittedBadSignature] ->
  let w' := snd (onCommitted w msg) in
  Blockchain (cons w') = Blockchain (cons w)
  /\ aggregatedCommitSig (cons w') = aggregatedCommitSig (cons w)
  /\ commitBitmap (cons w') = commitBitmap (cons w)
  /\ FBFTLog (cons w') = FBFTLog (cons w)
  /\ phase (cons w') = phase (cons w)
  /\ blockHash (cons w') = blockHash (cons w)
  /\ blockNum (cons w') = blockNum (cons w)
  /\ sent w' = sent w
  /\ (forall p m, heap w !! p = Some m -> heap w' !! p = Some m).
Proof.
  intros Hexit w'; subst w'. unfold onCommitted in *.
  destruct (onCommittedChecks w msg) as [[e x]|[[[[r s] p] b] w1]] eqn:Hc.
  - destruct (onCommittedChecks_rejected w msg e x Hc) as ([g Hcons] & Hs & Hh).
    pose proof (gate_frame w g) as F. cbv zeta in F.
    destruct F as (F1 & F2 & _ & F4 & _ & _ & F7 & F8 & F9 & F10 & _).
    cbn [snd]. rewrite Hcons, Hs.
    repeat (split; [assumption|]). split; [reflexivity|].
    intros q m Hq. destruct Hh as [Hh|[m' Hh]]; rewrite Hh; [exact Hq|].
    rewrite lookup_app_l; [exact Hq|]. eapply lookup_lt_Some; exact Hq.
  - exfalso. cbn [In] in Hexit.
    destruct (onCommittedFinish_tags
                (tryCatchup (onCommittedStore w1 r s p b)) r) as [T|[T|T]];
      rewrite T in Hexit; intuition discriminate.
Qed.

(** X15: the store step of an accepted committed message touches the stored
    commit signature of its own block number only, and leaves there either
    what was stored or the received payload. *)
Theorem onCommittedStore_local
  (w : World) (msg : RawMessage) (recvMsg : FBFTMessage) (aggSig : Sign)
  (mask : MaskRef) (blockObj : types_Block) (w1 : World) :
  onCommittedChecks w msg = inr (recvMsg, aggSig, mask, blockObj, w1) ->
  let mid := onCommittedStore w1 recvMsg aggSig mask blockObj in
  (forall num, num <> NumberU64 blockObj ->
               ReadCommitSig (cons mid) num = ReadCommitSig (cons w) num)
  /\ (ReadCommitSig (cons mid) (NumberU64 blockObj) = Some (Payload recvMsg)
      \/ ReadCommitSig (cons mid) (NumberU64 blockObj)
         = ReadCommitSig (cons w) (NumberU64 blockObj)).
Proof.
  intros Hacc mid.
  destruct (onCommittedChecks_mask _ _ _ _ _ _ _ Hacc) as (Hd & Hp & Hbc).
  assert (Hmid : Blockchain (cons mid) = Blockchain (cons w)
                 \/ Blockchain (cons mid)
                    = <[NumberU64 blockObj := Payload recvMsg]> (Blockchain (cons w))).
  { subst mid; unfold onCommittedStore, ReadCommitSig.
    cbn [cons updC set_commitBitmap set_aggregatedCommitSig set_FBFTLog Blockchain].
    rewrite Hbc. repeat break_match; cbn; rewrite Hbc; auto. }
  unfold ReadCommitSig. destruct Hmid as [Hmid|Hmid]; rewrite Hmid; split.
  - reflexivity.
  - right; reflexivity.
  - intros num Hne. apply lookup_insert_ne. congruence.
  - left. apply lookup_insert_eq.
Qed.

(** X16: the store step of an accepted committed message logs the message
    and makes its signature the aggregated commit signature, whether or not
    its payload is persisted.  It writes to no mask that existed before the
    handler ran, leaves the phase, the block hash, the block field and the
    prepare signature and bitmap alone, sends nothing, and keeps the bitmap
    fields pointing into the heap. *)
Theorem onCommittedStore_frame
  (w : World) (msg : RawMessage) (recvMsg : FBFTMessage) (aggSig : Sign)
  (mask : MaskRef) (blockObj : types_Block) (w1 : World) :
  onCommittedChecks w msg = inr (recvMsg, aggSig, mask, blockObj, w1) ->
  let mid := onCommittedStore w1 recvMsg aggSig mask blockObj in
  onCommitted w msg = onCommittedFinish (tryCatchup mid) recvMsg
  /\ messages (FBFTLog (cons mid)) = recvMsg :: messages (FBFTLog (cons w))
  /\ aggregatedCommitSig (cons mid) = Some aggSig
  /\ (forall p m, heap w !! p = Some m -> heap mid !! p = Some m)
  /\ length (heap mid) = S (length (heap w))
  /\ phase (cons mid) = phase (cons w)
  /\ blockHash (cons mid) = blockHash (cons w)
  /\ block (cons mid) = block (cons w)
  /\ aggregatedPrepareSig (cons mid) = aggregatedPrepareSig (cons w)
  /\ prepareBitmap (cons mid) = prepareBitmap (cons w)
  /\ sent mid = sent w
  /\ (maskRefsValid w = true -> maskRefsValid mid = true).
Proof.
  intros Hacc mid.
  destruct (onCommittedChecks_accepted _ _ _ _ _ _ _ Hacc) as (_ & Hc & Hm & Hh & _).
  pose proof (gate_frame w (BlockNum recvMsg >? blockNum (cons w))%Z) as F. cbv zeta in F.
  rewrite <- Hc in F.
  destruct F as (_ & F2 & F3 & F4 & F5 & F6 & _ & _ & F9 & _ & _ & _).
  assert (Hs : sent w1 = sent w).
  { unfold onCommittedChecks in Hacc.
    destruct (ParseFBFTMessage msg) as [r|? ?]; [|discriminate].
    destruct (BlockNum r <? uint64_sub (blockNum (cons w)) 1)%Z; [discriminate|].
    pose proof (gate_frame w (BlockNum r >? blockNum (cons w))%Z) as G. cbv zeta in G.
    destruct G as (_ & _ & _ & _ & _ & _ & _ & _ & _ & _ & _ & Gs).
    revert Gs Hacc.
    generalize (if (BlockNum r >? blockNum (cons w))%Z then spinUpStateSync w else w).
    intros w0 Gs Hacc.
    destruct (ReadSignatureBitmapPayload_split w0 (Payload r)) as [Hr|(s & Hr & _)];
      rewrite Hr in Hacc; [discriminate|].
    repeat break_match_in Hacc; try discriminate.
    injection Hacc as <- <- <- <- <-. exact Gs. }
  assert (Hshape : cons mid
                   = set_commitBitmap (Some mask)
                       (set_aggregatedCommitSig (Some aggSig)
                          (set_FBFTLog (FBFTLog_AddMessage recvMsg (FBFTLog (cons w1)))
                             (cons w1)))
                   \/ cons mid
                      = WriteCommitSig (NumberU64 blockObj) (Payload recvMsg)
                          (set_commitBitmap (Some mask)
                             (set_aggregatedCommitSig (Some aggSig)
                                (set_FBFTLog (FBFTLog_AddMessage recvMsg (FBFTLog (cons w1)))
                                   (cons w1))))).
  { subst mid; unfold onCommittedStore. repeat break_match; cbn; auto. }
  assert (Hheap : (heap mid = heap w1 \/ exists m, heap mid = <[mask := m]> (heap w1))
                  /\ sent mid = sent w1).
  { subst mid; unfold onCommittedStore. repeat break_match; cbn; eauto. }
  destruct Hheap as [Hheap Hsent].
  assert (Hold : forall p m, heap w !! p = Some m -> heap mid !! p = Some m).
  { intros p m Hp. pose proof (lookup_lt_Some _ _ _ Hp) as Hlt.
    destruct Hheap as [Hx|[m' Hx]]; rewrite Hx, ?Hh.
    - rewrite lookup_app_l; [exact Hp|exact Hlt].
    - rewrite list_lookup_insert_ne by (rewrite Hm; lia).
      rewrite lookup_app_l; [exact Hp|exact Hlt]. }
  assert (Hlen : length (heap mid) = S (length (heap w))).
  { destruct Hheap as [Hx|[m' Hx]]; rewrite Hx, ?length_insert, Hh, length_app; cbn; lia. }
  split; [apply onCommitted_accepted; exact Hacc|].
  assert (Hfields : messages (FBFTLog (cons mid)) = recvMsg :: messages (FBFTLog (cons w1))
                    /\ aggregatedCommitSig (cons mid) = Some aggSig
                    /\ phase (cons mid) = phase (cons w1)
                    /\ blockHash (cons mid) = blockHash (cons w1)
                    /\ block (cons mid) = block (cons w1)
                    /\ aggregatedPrepareSig (cons mid) = aggregatedPrepareSig (cons w1)
                    /\ prepareBitmap (cons mid) = prepareBitmap (cons w1)
                    /\ commitBitmap (cons mid) = Some mask).
  { destruct Hshape as [Hx|Hx]; rewrite Hx; cbn; repeat split; reflexivity. }
  destruct Hfields as (G1 & G2 & G3 & G4 & G5 & G6 & G7 & G8).
  rewrite G1, G3, G4, G5, G6, G7, F2, F3, F4, F5, F6, F9, Hsent, Hs.
  repeat (split; [first [reflexivity|assumption]|]).
  unfold maskRefsValid, maskRefValid. rewrite G7, G8, F6, Hlen.
  intros Hv; apply andb_true_iff in Hv; destruct Hv as [V1 _].
  apply andb_true_iff; split.
  - destruct (prepareBitmap (cons w)) as [q|]; [|reflexivity].
    apply Nat.ltb_lt in V1; apply Nat.ltb_lt; lia.
  - apply Nat.ltb_lt; rewrite Hm; lia.
Qed.

(** X17: with a commit signature of the same byte length already stored for
    the block, an accepted committed message replaces it only if it has
    strictly more signers; on a tie or with fewer the stored one stays.
    Either way the stored blob keeps its length and its signer count is the
    larger of the two.  Catch-up is taken not to rewrite stored signatures. *)
Theorem onCommitted_keeps_stored_unless_more_signers
  (w : World) (msg : RawMessage) (recvMsg : FBFTMessage) (aggSig : Sign)
  (mask : MaskRef) (blockObj : types_Block) (w1 : World) (old : bytes) :
  (forall x, Blockchain (cons (tryCatchup x)) = Blockchain (cons x)) ->
  onCommittedChecks w msg = inr (recvMsg, aggSig, mask, blockObj, w1) ->
  ReadCommitSig (cons w) (NumberU64 blockObj) = Some old ->
  length old = length (Payload recvMsg) ->
  exists stored,
    ReadCommitSig (cons (snd (onCommitted w msg))) (NumberU64 blockObj) = Some stored
    /\ length stored = length old
    /\ signers stored = Nat.max (signers old) (signers (Payload recvMsg))
    /\ (signers (Payload recvMsg) <= signers old -> stored = old)
    /\ (signers old < signers (Payload recvMsg) -> stored = Payload recvMsg).
Proof.
  intros Hframe Hacc Hold Hlen.
  pose proof (onCommitted_persisted _ _ _ _ _ _ _ Hframe Hacc) as H.
  rewrite Hold, Hlen, Nat.eqb_refl in H.
  destruct (signers old <? signers (Payload recvMsg)) eqn:Hc.
  - apply Nat.ltb_lt in Hc. exists (Payload recvMsg).
    split; [exact H|]. split; [symmetry; exact Hlen|].
    split; [lia|]. split; [lia|reflexivity].
  - apply Nat.ltb_ge in Hc. exists old.
    split; [exact H|]. split; [reflexivity|].
    split; [lia|]. split; [reflexivity|lia].
Qed.

(** X18: delivering an accepted committed message a second time does not
    change what is persisted for its block.  Catch-up is taken not to
    rewrite stored signatures. *)
Theorem onCommitted_redelivery
  (w : World) (msg : RawMessage)
  (recvMsg recvMsg' : FBFTMessage) (aggSig aggSig' : Sign) (mask mask' : MaskRef)
  (blockObj blockObj' : types_Block) (w1 w2 : World) :
  (forall x, Blockchain (cons (tryCatchup x)) = Blockchain (cons x)) ->
  onCommittedChecks w msg = inr (recvMsg, aggSig, mask, blockObj, w1) ->
  onCommittedChecks (snd (onCommitted w msg)) msg
  = inr (recvMsg', aggSig', mask', blockObj', w2) ->
  NumberU64 blockObj' = NumberU64 blockObj ->
  let once := snd (onCommitted w msg) in
  let twice := snd (onCommitted once msg) in
  ReadCommitSig (cons twice) (NumberU64 blockObj)
  = ReadCommitSig (cons once) (NumberU64 blockObj).
Proof.
  intros Hframe Hacc1 Hacc2 Hnum once twice.
  destruct (onCommittedChecks_accepted _ _ _ _ _ _ _ Hacc1) as (Hp1 & _).
  destruct (onCommittedChecks_accepted _ _ _ _ _ _ _ Hacc2) as (Hp2 & _).
  assert (Hsame : recvMsg' = recvMsg) by congruence. subst recvMsg'.
  pose proof (onCommitted_persisted _ _ _ _ _ _ _ Hframe Hacc1) as H1.
  pose proof (onCommitted_persisted _ _ _ _ _ _ _ Hframe Hacc2) as H2.
  rewrite Hnum in H2. fold once in H1, H2. fold twice in H2.
  rewrite H2, H1.
  destruct (ReadCommitSig (cons w) (NumberU64 blockObj)) as [old|].
  - destruct (length old =? length (Payload recvMsg)) eqn:Hl.
    + apply Nat.eqb_eq in Hl.
      destruct (signers old <? signers (Payload recvMsg)) eqn:Hc.
      * rewrite Nat.eqb_refl, Nat.ltb_irrefl. reflexivity.
      * rewrite Hl, Nat.eqb_refl, Hc. reflexivity.
    + rewrite Nat.eqb_refl, Nat.ltb_irrefl. reflexivity.
  - rewrite Nat.eqb_refl, Nat.ltb_irrefl. reflexivity.
Qed.

(** X19: an accepted committed message ahead of the node has run the resync
    trigger and is stored all the same: when it reaches catch-up a sync
    signal is pending and a commit signature is persisted for its block;
    and if catch-up does not bring the node up to the message's block, the
    handler returns there as out of sync, with the state catch-up left. *)
Theorem onCommitted_ahead_is_stored
  (w : World) (msg : RawMessage) (recvMsg : FBFTMessage) (aggSig : Sign)
  (mask : MaskRef) (blockObj : types_Block) (w1 : World) :
  onCommittedChecks w msg = inr (recvMsg, aggSig, mask, blockObj, w1) ->
  (blockNum (cons w) < BlockNum recvMsg)%Z ->
  let mid := onCommittedStore w1 recvMsg aggSig mask blockObj in
  BlockNumLowChan (cons mid) = ChanPending
  /\ (BlockNumLowChan (cons w) = ChanEmpty -> current (cons mid) = Syncing)
  /\ (exists stored, ReadCommitSig (cons mid) (NumberU64 blockObj) = Some stored)
  /\ (ReadCommitSig (cons w) (NumberU64 blockObj) = None ->
      ReadCommitSig (cons mid) (NumberU64 blockObj) = Some (Payload recvMsg))
  /\ ((blockNum (cons (tryCatchup mid)) < BlockNum recvMsg)%Z ->
      onCommitted w msg = (CommittedOutOfSync, tryCatchup mid)).
Proof.
  intros Hacc Hahead mid.
  destruct (onCommittedChecks_accepted _ _ _ _ _ _ _ Hacc) as (_ & Hc & _).
  replace (BlockNum recvMsg >? blockNum (cons w))%Z with true in Hc
    by (symmetry; rewrite Z.gtb_ltb; apply Z.ltb_lt; exact Hahead).
  destruct (onCommittedChecks_mask _ _ _ _ _ _ _ Hacc) as (Hd & Hp & Hbc).
  pose proof (onCommittedStore_spec w1 recvMsg aggSig mask blockObj Hd Hp) as Hspec.
  cbn zeta in Hspec. destruct Hspec as [_ Hspec]. fold mid in Hspec.
  unfold ReadCommitSig in Hspec at 1. rewrite Hbc in Hspec.
  assert (Hkeep : BlockNumLowChan (cons mid) = BlockNumLowChan (cons w1)
                  /\ current (cons mid) = current (cons w1)).
  { subst mid; unfold onCommittedStore. repeat break_match; cbn; split; reflexivity. }
  destruct Hkeep as [K1 K2]. rewrite K1, K2, Hc.
  split; [apply spinUpStateSync_chan|].
  split; [intros Hempty; rewrite (spinUpStateSync_empty w Hempty); reflexivity|].
  split; [|split].
  - unfold ReadCommitSig in *.
    destruct (Blockchain (cons w) !! NumberU64 blockObj) as [old|];
      [destruct (length old =? length (Payload recvMsg))|];
      destruct Hspec as [_ Hs]; rewrite Hs; eauto.
  - intros Hnone. unfold ReadCommitSig in Hnone. rewrite Hnone in Hspec. apply Hspec.
  - intros Hbehind. rewrite (onCommitted_accepted _ _ _ _ _ _ _ Hacc). fold mid.
    unfold onCommittedFinish.
    replace (BlockNum recvMsg >? blockNum (cons (tryCatchup mid)))%Z with true
      by (symmetry; rewrite Z.gtb_ltb; apply Z.ltb_lt; exact Hbehind).
    reflexivity.
Qed.

End Committed.

(** ** The further properties on the small committee *)

Module MoreExamples.
Import Demo Demo2.

(** A listening node given three messages sends none. *)
Lemma broadcast_listening_sends_nothing_witness :
  @broadcastConsensusP2pMessages env nodeListening threeMessages = (nodeListening, None).
Proof.
  exact (@broadcast_listening_sends_nothing env nodeListening threeMessages eq_refl).
Defined.

(** The transport refuses the second of three messages: one is sent. *)
Lemma broadcast_stops_at_first_failure_witness :
  exists k,
    sent (fst (@broadcastConsensusP2pMessages flaky node threeMessages))
    = sent node ++ map (fun m => x11 :: Bytes m) (take k threeMessages)
    /\ match snd (@broadcastConsensusP2pMessages flaky node threeMessages) with
       | None => k = 3
       | Some err =>
           exists m, threeMessages !! k = Some m
                     /\ @SendWithoutRetry flaky
                          (sent (fst (@broadcastConsensusP2pMessages flaky node threeMessages)))
                          (x11 :: Bytes m) = Some err
       end.
Proof.
  apply (@broadcast_stops_at_first_failure flaky node threeMessages).
  vm_compute; discriminate.
Defined.

(** Three signers for block 5 on the node at block 5 are answered. *)
Lemma onPrepared_commit_requires_witness :
  exists recvMsg,
    @ParseFBFTMessage env threeSigners = ParseOk recvMsg
    /\ BlockNum recvMsg = 5%Z
    /\ current (cons node) = Normal.
Proof.
  destruct (@onPrepared_commit_requires env node threeSigners
              ltac:(vm_compute; reflexivity))
    as (recvMsg & aggSig & blockObj & verify & H1 & H2 & H3 & _).
  exists recvMsg. split; [exact H1|]. split; [exact H2|exact H3].
Defined.

(** Two signers: nothing is sent and the prepare fields stay. *)
Lemma onPrepared_quiet_unless_commit_witness :
  let w' := snd (@onPrepared env node twoSigners) in
  sent w' = [] /\ phase (cons w') = FBFTAnnounce
  /\ aggregatedPrepareSig (cons w') = None /\ prepareBitmap (cons w') = None.
Proof.
  apply (@onPrepared_quiet_unless_commit env node twoSigners).
  vm_compute; discriminate.
Defined.

(** The all-zero block hash is replaced, a chosen one is kept. *)
Lemma onPrepared_blockHash_witness :
  blockHash (cons (snd (@onPrepared env node threeSigners))) = repeat xaa 32
  /\ blockHash (cons (snd (@onPrepared env nodeWithHash threeSigners))) = repeat xbb 32.
Proof.
  split.
  - exact (@onPrepared_blockHash env node threeSigners _ eq_refl).
  - exact (@onPrepared_blockHash env nodeWithHash threeSigners _ eq_refl).
Defined.

(** The valid prepared message: phase Commit, two COMMIT messages at most. *)
Lemma onPrepared_accepts_witness :
  let w' := snd (@onPrepared env node threeSigners) in
  fst (@onPrepared env node threeSigners) = PreparedCommitSent
  /\ phase (cons w') = FBFTCommit
  /\ aggregatedPrepareSig (cons w') = Some sig
  /\ prepareBitmap (cons w') = Some 0
  /\ deref w' 0 = mkMask [x07].
Proof.
  destruct (@onPrepared_accepts env node threeSigners _ _ _ _
              eq_refl eq_refl ltac:(vm_compute; lia) eq_refl eq_refl eq_refl
              eq_refl eq_refl eq_refl eq_refl eq_refl eq_refl)
    as (H1 & _ & H3 & H4 & H5 & H6 & _).
  repeat split; assumption.
Defined.

(** An announce message on the node: it returns, block number untouched. *)
Lemma onAnnounce_frame_witness :
  exists l w', @onAnnounce env node threeSigners = Returned l w'
               /\ blockNum (cons w') = 5%Z /\ heap w' = [].
Proof.
  destruct (@onAnnounce_frame env node threeSigners _ eq_refl)
    as (l & w' & H1 & H2 & _ & _ & _ & _ & _ & _ & _ & _ & _ & H12 & _).
  exists l, w'. split; [exact H1|]. split; [exact H2|exact H12].
Defined.

(** Two signers on a committed message: dropped, nothing stored. *)
Lemma onCommitted_rejected_frame_witness :
  let w' := snd (@onCommitted env node twoSigners) in
  ReadCommitSig (cons w') 5 = None /\ commitBitmap (cons w') = None /\ sent w' = [].
Proof.
  destruct (@onCommitted_rejected_frame env node twoSigners) as (H1 & _ & H3 & _ & _ & _ & _ & H8 & _).
  - vm_compute. tauto.
  - unfold ReadCommitSig. rewrite H1. split; [reflexivity|]. split; [exact H3|exact H8].
Defined.

(** Storing for block 5 leaves block 6 without a stored signature. *)
Lemma onCommittedStore_local_witness :
  ReadCommitSig (cons (@onCommittedStore env (mkWorld (cons node) [mkMask [x07]] [])
                         (mkFBFTMessage 1 5 (repeat xaa 32) (sig ++ [x07]) [x05; xaa])
                         sig 0 (mkBlock 0 (repeat xaa 32) 5 1))) 6
  = None.
Proof.
  exact (proj1 (@onCommittedStore_local env node threeSigners _ _ _ _ _ eq_refl)
           6%Z ltac:(vm_compute; discriminate)).
Defined.

(** The accepted message is logged and its signature kept in memory. *)
Lemma onCommittedStore_frame_witness :
  let mid := @onCommittedStore env (mkWorld (cons node) [mkMask [x07]] [])
               (mkFBFTMessage 1 5 (repeat xaa 32) (sig ++ [x07]) [x05; xaa])
               sig 0 (mkBlock 0 (repeat xaa 32) 5 1) in
  aggregatedCommitSig (cons mid) = Some sig
  /\ length (heap mid) = 1
  /\ phase (cons mid) = FBFTAnnounce.
Proof.
  destruct (@onCommittedStore_frame env node threeSigners _ _ _ _ _ eq_refl)
    as (_ & _ & H3 & _ & H5 & H6 & _).
  split; [exact H3|]. split; [exact H5|exact H6].
Defined.

(** Three signers stored, three other signers arrive: the first stay. *)
Lemma onCommitted_keeps_stored_unless_more_signers_witness :
  exists stored,
    ReadCommitSig
      (cons (snd (@onCommitted env (snd (@onCommitted env node threeSigners))
                    otherThreeSigners))) 5
    = Some stored
    /\ stored = sig ++ [x07].
Proof.
  destruct (@onCommitted_keeps_stored_unless_more_signers env
              (snd (@onCommitted env node threeSigners)) otherThreeSigners
              _ _ _ _ _ _ Examples.catchup_keeps_commit_sigs eq_refl eq_refl eq_refl)
    as (stored & H1 & _ & _ & H4 & _).
  exists stored. split; [exact H1|]. apply H4. vm_compute; lia.
Defined.

(** The same three-signer message twice. *)
Lemma onCommitted_redelivery_witness :
  ReadCommitSig
    (cons (snd (@onCommitted env (snd (@onCommitted env node threeSigners)) threeSigners))) 5
  = ReadCommitSig (cons (snd (@onCommitted env node threeSigners))) 5.
Proof.
  exact (@onCommitted_redelivery env node threeSigners _ _ _ _ _ _ _ _ _ _
           Examples.catchup_keeps_commit_sigs eq_refl eq_refl eq_refl).
Defined.

(** A committed message for block 9 on the node at block 5 that holds the
    block: stored, sync signalled, out of sync. *)
Lemma onCommitted_ahead_is_stored_witness :
  fst (@onCommitted env nodeWithFutureBlock committedAhead) = CommittedOutOfSync.
Proof.
  destruct (@onCommitted_ahead_is_stored env nodeWithFutureBlock committedAhead
              _ _ _ _ _ eq_refl ltac:(vm_compute; reflexivity))
    as (_ & _ & _ & _ & H5).
  rewrite H5 by (vm_compute; reflexivity). reflexivity.
Defined.

(** The node holds both timers, bootstrap running: a committed message for
    its block stops the bootstrap timer and starts the consensus timer. *)
Lemma onCommittedFinish_timers_witness :
  let recvMsg := mkFBFTMessage 1 5 (repeat xaa 32) (sig ++ [x07]) [x05; xaa] in
  let w' := snd (@onCommittedFinish node recvMsg) in
  fst (@onCommittedFinish node recvMsg) = CommittedTimerStarted
  /\ Timeout_IsActive timeoutBootstrap (consensusTimeout (cons node)) = true
  /\ Timeout_IsActive timeoutBootstrap (consensusTimeout (cons w')) = false
  /\ Timeout_IsActive timeoutConsensus (consensusTimeout (cons w')) = true.
Proof.
  cbv zeta.
  destruct (@onCommittedFinish_timers node
              (mkFBFTMessage 1 5 (repeat xaa 32) (sig ++ [x07]) [x05; xaa])
              eq_refl eq_refl)
    as (H1 & _ & H3 & _).
  assert (He : fst (@onCommittedFinish node
                      (mkFBFTMessage 1 5 (repeat xaa 32) (sig ++ [x07]) [x05; xaa]))
               = CommittedTimerStarted).
  { apply H1. split; [vm_compute; discriminate|vm_compute; discriminate]. }
  split; [exact He|]. split; [reflexivity|]. exact (H3 He).
Defined.

End MoreExamples.
